(** * FacePay: biometric-gated payment authorization

    A shallow embedding of the two services of the FacePay backend,

      - [src/services/faceRecognition.js]: embedding comparison
        ([compareFaces]), the best-match scan ([findBestMatch]) and the
        quality gate ([validateFaceQuality]) with its checks
        ([isFaceCentered], [checkBrightness], [checkBlur]);
      - [src/services/paymentService.js]: creation of a payment
        ([createPaymentIntent], [processFacePayment]), [confirmPayment],
        [refundPayment], the webhook handlers and the payment methods of
        a user ([createSetupIntent], [attachPaymentMethod],
        [getPaymentMethods]).

    JavaScript numbers are IEEE 754 binary64 values; they are modelled by
    [spec_float] with precision 53 and maximal exponent 1024, so every
    arithmetic step rounds as the program's does and the definitions run.
    A thrown [Error] is the [Throw] result carrying the message.  The
    payment service runs against a document store and a payment gateway:
    the store is explicit state, the gateway's answers are inputs. *)

From Stdlib Require Import ZArith List String Ascii Bool Lia.
From Stdlib Require Import SpecFloat.
Import ListNotations.

Local Open Scope string_scope.
Local Open Scope Z_scope.

(** ** Results of calls that may throw *)

Inductive result (A : Type) : Type :=
| Ok (value : A)
| Throw (message : string).
Arguments Ok {A} value.
Arguments Throw {A} message.

(** [try { body } catch (error) { throw new Error(prefix + error.message) }] *)
Definition rethrow {A : Type} (prefix : string) (body : result A) : result A :=
  match body with
  | Ok v => Ok v
  | Throw message => Throw (prefix ++ message)
  end.

Definition isOk {A : Type} (r : result A) : bool :=
  match r with Ok _ => true | Throw _ => false end.

(** ** JavaScript numbers *)

Module Num.

Definition prec : Z := 53.
Definition emax : Z := 1024.

Definition number : Type := spec_float.

Definition NaN : number := S754_nan.

(** The number denoted by an integer literal. *)
Definition ofZ (z : Z) : number := binary_normalize prec emax z 0 false.

Definition add : number -> number -> number := SFadd prec emax.
Definition sub : number -> number -> number := SFsub prec emax.
Definition mul : number -> number -> number := SFmul prec emax.
Definition div : number -> number -> number := SFdiv prec emax.

(** The number denoted by the decimal literal [p/q] ([0.6] is [dec 6 10]):
    the binary64 value nearest to the quotient, which is what a
    correctly rounded division of the two integers gives. *)
Definition dec (p q : Z) : number := div (ofZ p) (ofZ q).

(** [a < b], [a <= b], [a > b], [a >= b]; all false on NaN. *)
Definition lt (a b : number) : bool := SFltb a b.
Definition le (a b : number) : bool := SFleb a b.
Definition gt (a b : number) : bool := SFltb b a.
Definition ge (a b : number) : bool := SFleb b a.

Definition isNaN (a : number) : bool :=
  match a with S754_nan => true | _ => false end.

Definition isZero (a : number) : bool :=
  match a with S754_zero _ => true | _ => false end.

(** Neither an infinity nor NaN. *)
Definition isFinite (a : number) : bool :=
  match a with S754_zero _ | S754_finite _ _ _ => true | _ => false end.

(** [x || d] on numbers: NaN, [+0] and [-0] are falsy. *)
Definition orElse (x d : number) : number :=
  if isNaN x || isZero x then d else x.

Definition Math_sqrt : number -> number := SFsqrt prec emax.

Definition Math_abs : number -> number := SFabs.

(** [Math.pow(x, 2)], taken as the correctly rounded square. *)
Definition Math_pow2 (x : number) : number := mul x x.

(** [Math.max(a, b)]: NaN if either is NaN, and [+0] is larger than [-0]. *)
Definition Math_max (a b : number) : number :=
  match SFcompare a b with
  | None => NaN
  | Some Lt => b
  | Some Gt => a
  | Some Eq =>
      match a, b with
      | S754_zero true, S754_zero _ => b
      | _, _ => a
      end
  end.

(** [Math.round(x)]: the nearest integer, a tie going towards +infinity;
    integers, zeros, infinities and NaN are returned as they are, and a
    negative argument that rounds to zero gives [-0]. *)
Definition Math_round (x : number) : number :=
  match x with
  | S754_finite s m e =>
      if 0 <=? e then x
      else
        let d := 2 ^ (- e) in
        if s then
          let n := - ((d - 2 * Zpos m) / (2 * d)) in
          if n =? 0 then S754_zero true else SFopp (ofZ n)
        else
          let n := (2 * Zpos m + d) / (2 * d) in
          if n =? 0 then S754_zero false else ofZ n
  | _ => x
  end.

(** The order of the numbers that are not NaN, as the lexicographic
    order of a triple: the class (negative infinity, negative, zero,
    positive, positive infinity), then exponent and mantissa, both
    negated for a negative number. *)
Definition rank (x : number) : option (Z * Z * Z) :=
  match x with
  | S754_nan => None
  | S754_infinity true => Some (-2, 0, 0)
  | S754_infinity false => Some (2, 0, 0)
  | S754_zero _ => Some (0, 0, 0)
  | S754_finite true m e => Some (-1, - e, Zneg m)
  | S754_finite false m e => Some (1, e, Zpos m)
  end.

Definition lexCompare (a b : Z * Z * Z) : comparison :=
  let '(a1, a2, a3) := a in
  let '(b1, b2, b3) := b in
  match a1 ?= b1 with
  | Eq => match a2 ?= b2 with
          | Eq => a3 ?= b3
          | c => c
          end
  | c => c
  end.

(** The lexicographic order, as a proposition on the components. *)
Definition lexLt (a b : Z * Z * Z) : Prop :=
  let '(a1, a2, a3) := a in
  let '(b1, b2, b3) := b in
  a1 < b1 \/ (a1 = b1 /\ (a2 < b2 \/ (a2 = b2 /\ a3 < b3))).

End Num.

Import Num.

(** ** The face recognition service *)

Module FaceRecognition.

(** [parseFloat(process.env.FACE_RECOGNITION_THRESHOLD) || 0.6]; the
    argument is the parsed variable, NaN when it is unset. *)
Definition configuredThreshold (parsed : number) : number :=
  orElse parsed (dec 6 10).

Definition defaultThreshold : number := configuredThreshold NaN.

(** What [compareFaces] returns. *)
Record Comparison : Type := {
  distance : number;
  similarity : number;
  isMatch : bool
}.

(** An enrolled embedding of a user ([user.faceEmbeddings[i]]); the
    [embedding] field may be absent. *)
Record StoredEmbedding : Type := {
  _id : Z;
  embedding : option (list number);
  confidence : number
}.

(** [{ ...stored, similarity, distance }] *)
Record BestMatch : Type := {
  stored : StoredEmbedding;
  matchSimilarity : number;
  matchDistance : number
}.

(** What [checkBrightness] returns. *)
Record Brightness : Type := {
  value : number;
  isGood : bool;
  message : string
}.

(** What [checkBlur] returns. *)
Record Blur : Type := {
  blurValue : number;
  blurIsGood : bool;
  blurMessage : string
}.

(** [detection.detection.box] *)
Record Box : Type := {
  x : number;
  y : number;
  width : number;
  height : number;
  area : number
}.

(** The one detection that [detectFaces] returns: the score and the box
    of [detection.detection], and whether [detection.landmarks] is there. *)
Record Detection : Type := {
  score : number;
  box : Box;
  landmarks : bool
}.

(** The checks of [validateFaceQuality] on a detected face. *)
Record QualityChecks : Type := {
  qualityConfidence : number;
  isHighQuality : bool;
  hasLandmarks : bool;
  faceSize : number;
  isCentered : bool;
  brightness : Brightness;
  blur : Blur
}.

(** What [validateFaceQuality] returns: the checks with [isDetected: true]
    and the verdict, or [isDetected: false] with the error. *)
Inductive Quality : Type :=
| Checked (checks : QualityChecks) (isAcceptable : bool)
| NotDetected (error : string).

Definition isDetected (q : Quality) : bool :=
  match q with Checked _ _ => true | NotDetected _ => false end.

Definition isAcceptable (q : Quality) : bool :=
  match q with Checked _ acceptable => acceptable | NotDetected _ => false end.

(** The loop of [compareFaces]:
    [sum += Math.pow(embedding1[i] - embedding2[i], 2)], run over two
    arrays of the same length. *)
Fixpoint sumOfSquares (embedding1 embedding2 : list number) (sum : number)
  : number :=
  match embedding1, embedding2 with
  | x :: rest1, y :: rest2 =>
      sumOfSquares rest1 rest2 (add sum (Math_pow2 (sub x y)))
  | _, _ => sum
  end.

(** The loop of [checkBrightness], three bytes at a time; a byte read
    past the end of the buffer is [undefined] and turns the sum into NaN. *)
Fixpoint sumBrightness (data : list Z) (totalBrightness : number) : number :=
  match data with
  | [] => totalBrightness
  | r :: g :: b :: rest =>
      sumBrightness rest
        (add totalBrightness
             (div (add (add (ofZ r) (ofZ g)) (ofZ b)) (ofZ 3)))
  | _ => NaN
  end.

Section Service.

(** [this.threshold] *)
Variable threshold : number.

Definition compareFaces (embedding1 embedding2 : option (list number))
  : result Comparison :=
  rethrow "Face comparison failed: "
    match embedding1, embedding2 with
    | Some e1, Some e2 =>
        if negb (Nat.eqb (List.length e1) (List.length e2)) then
          Throw "Embeddings must have the same length"
        else
          let sum := sumOfSquares e1 e2 (ofZ 0) in
          let distance := Math_sqrt sum in
          let similarity := Math_max (ofZ 0) (sub (ofZ 1) distance) in
          Ok {| distance := distance;
                similarity := similarity;
                isMatch := ge similarity threshold |}
    | _, _ => Throw "Both embeddings are required for comparison"
    end.

(** What [compareFaces] returns for two present vectors of one
    length. *)
Definition compared (e1 e2 : list number) : Comparison :=
  let distance := Math_sqrt (sumOfSquares e1 e2 (ofZ 0)) in
  let similarity := Math_max (ofZ 0) (sub (ofZ 1) distance) in
  {| distance := distance; similarity := similarity;
     isMatch := ge similarity threshold |}.

(** The object the loop retains for a candidate,
    [{ ...stored, similarity: comparison.similarity,
       distance: comparison.distance }]. *)
Definition retained (stored : StoredEmbedding) (comparison : Comparison)
  : BestMatch :=
  {| stored := stored;
     matchSimilarity := similarity comparison;
     matchDistance := distance comparison |}.

(** The [for ... of] loop of [findBestMatch], with its two variables. *)
Fixpoint scan (targetEmbedding : option (list number))
    (storedEmbeddings : list StoredEmbedding)
    (bestMatch : option BestMatch) (bestSimilarity : number)
  : result (option BestMatch) :=
  match storedEmbeddings with
  | [] => Ok bestMatch
  | stored :: rest =>
      match compareFaces targetEmbedding (embedding stored) with
      | Throw message => Throw message
      | Ok comparison =>
          if gt (similarity comparison) bestSimilarity then
            scan targetEmbedding rest
              (Some {| stored := stored;
                       matchSimilarity := similarity comparison;
                       matchDistance := distance comparison |})
              (similarity comparison)
          else scan targetEmbedding rest bestMatch bestSimilarity
      end
  end.

Definition findBestMatch (targetEmbedding : option (list number))
    (storedEmbeddings : list StoredEmbedding)
  : result (option BestMatch) :=
  rethrow "Best match search failed: "
    match scan targetEmbedding storedEmbeddings None (ofZ 0) with
    | Throw message => Throw message
    | Ok bestMatch =>
        Ok match bestMatch with
           | Some best =>
               if ge (matchSimilarity best) threshold then Some best
               else None
           | None => None
           end
    end.

End Service.

(** [checkBrightness]: [raw] is what the image library gives for the
    buffer resized to 100 x 100, the raw bytes or a failure. *)
Definition checkBrightness (raw : result (list Z)) : Brightness :=
  match raw with
  | Ok data =>
      let totalBrightness := sumBrightness data (ofZ 0) in
      let averageBrightness :=
        div totalBrightness (div (ofZ (Z.of_nat (List.length data))) (ofZ 3)) in
      let isGood := gt averageBrightness (ofZ 50) && lt averageBrightness (ofZ 200) in
      {| value := averageBrightness;
         isGood := isGood;
         message := if isGood then "Good brightness" else "Poor brightness" |}
  | Throw _ =>
      {| value := ofZ 0; isGood := false;
         message := "Unable to check brightness" |}
  end.

Definition isFaceCentered (box : Box) (imageWidth imageHeight : number)
  : bool :=
  let centerX := div imageWidth (ofZ 2) in
  let centerY := div imageHeight (ofZ 2) in
  let faceCenterX := add (x box) (div (width box) (ofZ 2)) in
  let faceCenterY := add (y box) (div (height box) (ofZ 2)) in
  let tolerance := dec 3 10 in
  let maxOffsetX := mul imageWidth tolerance in
  let maxOffsetY := mul imageHeight tolerance in
  le (Math_abs (sub faceCenterX centerX)) maxOffsetX &&
  le (Math_abs (sub faceCenterY centerY)) maxOffsetY.

(** [data[i]] as a number; a read past the end is [undefined], which is
    NaN in arithmetic. *)
Definition byteAt (data : list Z) (i : nat) : number :=
  match nth_error data i with
  | Some b => ofZ b
  | None => NaN
  end.

(** The body of the inner loop of [checkBlur] at row [y], column [x]. *)
Definition blurStep (data : list Z) (y x : nat) (blurScore : number) : number :=
  let idx := ((y * 100 + x) * 3)%nat in
  let current := byteAt data idx in
  let right := byteAt data (idx + 3) in
  let down := byteAt data (idx + 100 * 3) in
  add blurScore
      (add (Math_abs (sub current right)) (Math_abs (sub current down))).

(** The two loops of [checkBlur]: [y] and [x] from 1 to 98. *)
Definition blurScoreOf (data : list Z) : number :=
  fold_left
    (fun blurScore y =>
       fold_left (fun blurScore x => blurStep data y x blurScore)
                 (seq 1 98) blurScore)
    (seq 1 98) (ofZ 0).

(** [checkBlur], on what the image library gives for the buffer. *)
Definition checkBlur (raw : result (list Z)) : Blur :=
  match raw with
  | Ok data =>
      let averageBlur :=
        div (blurScoreOf data)
            (mul (sub (ofZ 100) (ofZ 1)) (sub (ofZ 100) (ofZ 1))) in
      let isGood := gt averageBlur (ofZ 10) in
      {| blurValue := averageBlur;
         blurIsGood := isGood;
         blurMessage := if isGood then "Image is sharp"
                        else "Image is too blurry" |}
  | Throw _ =>
      {| blurValue := ofZ 0; blurIsGood := false;
         blurMessage := "Unable to check blur" |}
  end.

(** [validateFaceQuality]: [detected] is what [detectFaces] gives for the
    buffer, [raw] what the image library gives for it in the two checks. *)
Definition validateFaceQuality (detected : result Detection)
    (raw : result (list Z)) : Quality :=
  match detected with
  | Ok detection =>
      let qualityChecks :=
        {| qualityConfidence := score detection;
           isHighQuality := ge (score detection) (dec 8 10);
           hasLandmarks := landmarks detection;
           faceSize := area (box detection);
           isCentered := isFaceCentered (box detection) (ofZ 640) (ofZ 480);
           brightness := checkBrightness raw;
           blur := checkBlur raw |} in
      Checked qualityChecks
        (isHighQuality qualityChecks && isCentered qualityChecks &&
         isGood (brightness qualityChecks) &&
         blurIsGood (blur qualityChecks))
  | Throw message => NotDetected message
  end.

End FaceRecognition.

(** ** Strings *)

(** [s.toLowerCase()] on the ASCII letters; other bytes are kept. *)
Definition toLowerCaseAscii (c : ascii) : ascii :=
  let n := nat_of_ascii c in
  if (65 <=? n)%nat && (n <=? 90)%nat then ascii_of_nat (n + 32) else c.

Fixpoint toLowerCase (s : string) : string :=
  match s with
  | EmptyString => EmptyString
  | String c rest => String (toLowerCaseAscii c) (toLowerCase rest)
  end.

(** [s || d] on an optional string: [undefined], [null] and the empty
    string are falsy. *)
Definition orString (s : option string) (d : string) : string :=
  match s with
  | Some EmptyString | None => d
  | Some v => v
  end.

Definition truthy (s : option string) : bool :=
  match s with
  | Some EmptyString | None => false
  | Some _ => true
  end.

(** ** Documents, the store and the gateway *)

Definition ObjectId : Type := Z.

(** A [Date], in milliseconds. *)
Definition Date : Type := Z.

(** The documents of the [User] model that the payment service reads. *)
Module User.
Record t : Type := {
  _id : ObjectId;
  email : string;
  fullName : string;
  phone : string;
  isActive : bool;
  stripeCustomerId : option string;
  defaultPaymentMethod : option string
}.

Definition with_stripeCustomerId (v : string) (u : t) : t :=
  {| _id := _id u; email := email u; fullName := fullName u;
     phone := phone u; isActive := isActive u;
     stripeCustomerId := Some v;
     defaultPaymentMethod := defaultPaymentMethod u |}.

Definition with_defaultPaymentMethod (v : string) (u : t) : t :=
  {| _id := _id u; email := email u; fullName := fullName u;
     phone := phone u; isActive := isActive u;
     stripeCustomerId := stripeCustomerId u;
     defaultPaymentMethod := Some v |}.
End User.

(** The documents of the [Payment] model, with the fields the service
    writes. *)
Module Payment.
Record FaceRecognitionData : Type := {
  confidence : number;
  embeddingDistance : number;
  threshold : number;
  imageUrl : option string
}.

Record t : Type := {
  _id : ObjectId;
  amount : number;
  currency : string;
  userId : ObjectId;
  stripePaymentIntentId : string;
  stripeCustomerId : string;
  faceRecognitionData : FaceRecognitionData;
  paymentMethod : string;
  description : string;
  status : string;
  ipAddress : string;
  userAgent : string;
  createdAt : Date;
  processedAt : option Date;
  failureReason : option string;
  failureCode : option string;
  refundedAt : option Date
}.

Definition with_status (v : string) (p : t) : t :=
  {| _id := _id p; amount := amount p; currency := currency p;
     userId := userId p; stripePaymentIntentId := stripePaymentIntentId p;
     stripeCustomerId := stripeCustomerId p;
     faceRecognitionData := faceRecognitionData p;
     paymentMethod := paymentMethod p; description := description p;
     status := v;
     ipAddress := ipAddress p; userAgent := userAgent p;
     createdAt := createdAt p; processedAt := processedAt p;
     failureReason := failureReason p; failureCode := failureCode p;
     refundedAt := refundedAt p |}.

Definition with_processedAt (v : Date) (p : t) : t :=
  {| _id := _id p; amount := amount p; currency := currency p;
     userId := userId p; stripePaymentIntentId := stripePaymentIntentId p;
     stripeCustomerId := stripeCustomerId p;
     faceRecognitionData := faceRecognitionData p;
     paymentMethod := paymentMethod p; description := description p;
     status := status p;
     ipAddress := ipAddress p; userAgent := userAgent p;
     createdAt := createdAt p; processedAt := Some v;
     failureReason := failureReason p; failureCode := failureCode p;
     refundedAt := refundedAt p |}.

Definition with_failureReason (v : string) (p : t) : t :=
  {| _id := _id p; amount := amount p; currency := currency p;
     userId := userId p; stripePaymentIntentId := stripePaymentIntentId p;
     stripeCustomerId := stripeCustomerId p;
     faceRecognitionData := faceRecognitionData p;
     paymentMethod := paymentMethod p; description := description p;
     status := status p;
     ipAddress := ipAddress p; userAgent := userAgent p;
     createdAt := createdAt p; processedAt := processedAt p;
     failureReason := Some v; failureCode := failureCode p;
     refundedAt := refundedAt p |}.

Definition with_failureCode (v : string) (p : t) : t :=
  {| _id := _id p; amount := amount p; currency := currency p;
     userId := userId p; stripePaymentIntentId := stripePaymentIntentId p;
     stripeCustomerId := stripeCustomerId p;
     faceRecognitionData := faceRecognitionData p;
     paymentMethod := paymentMethod p; description := description p;
     status := status p;
     ipAddress := ipAddress p; userAgent := userAgent p;
     createdAt := createdAt p; processedAt := processedAt p;
     failureReason := failureReason p; failureCode := Some v;
     refundedAt := refundedAt p |}.

Definition with_refundedAt (v : Date) (p : t) : t :=
  {| _id := _id p; amount := amount p; currency := currency p;
     userId := userId p; stripePaymentIntentId := stripePaymentIntentId p;
     stripeCustomerId := stripeCustomerId p;
     faceRecognitionData := faceRecognitionData p;
     paymentMethod := paymentMethod p; description := description p;
     status := status p;
     ipAddress := ipAddress p; userAgent := userAgent p;
     createdAt := createdAt p; processedAt := processedAt p;
     failureReason := failureReason p; failureCode := failureCode p;
     refundedAt := Some v |}.
(** Modelled from the spec: the schema of the payment model
    ([models/Payment.js]) is not among the sources.  Section 3 of the
    spec gives the status of a payment record as one of [pending],
    [succeeded], [failed] and [refunded]; saving a document validates its
    status against these four and throws on any other. *)
Definition validStatus (status : string) : bool :=
  String.eqb status "pending" || String.eqb status "succeeded" ||
  String.eqb status "failed" || String.eqb status "refunded".

(** The message of the validation error. *)
Definition validationError (status : string) : string :=
  "Payment validation failed: status: `" ++ status ++
  "` is not a valid enum value for path `status`.".

End Payment.

(** The objects of the payment gateway and its calls.  A call answers
    with an object or throws; what it answers is not the service's to
    decide, so a gateway is any family of such answers. *)
Module Stripe.

(** A metadata value: the service sends strings, some of them the
    rendering of an id, of a number or of a date. *)
Inductive MetaValue : Type :=
| Text (s : string)
| IdText (id : ObjectId)
| NumberText (x : number)
| IsoText (d : Date).

Definition Metadata : Type := list (string * MetaValue).

(** [{ ...metadata, key: v }]: an existing key keeps its place and takes
    the new value, a new key goes last. *)
Fixpoint setKey (key : string) (v : MetaValue) (metadata : Metadata)
  : Metadata :=
  match metadata with
  | [] => [(key, v)]
  | (k, w) :: rest =>
      if String.eqb k key then (k, v) :: rest
      else (k, w) :: setKey key v rest
  end.

Module PaymentError.
Record t : Type := { message : option string; code : option string }.
End PaymentError.

Module PaymentIntent.
Record t : Type := {
  id : string;
  status : string;
  client_secret : string;
  last_payment_error : option PaymentError.t
}.
End PaymentIntent.

Module Customer.
Record t : Type := { id : string }.
End Customer.

Module Refund.
Record t : Type := { id : string; amount : number; status : string }.
End Refund.

Module Card.
Record t : Type := {
  brand : string; last4 : string; exp_month : Z; exp_year : Z
}.
End Card.

Module PaymentMethod.
Record t : Type := { id : string; type : string; card : option Card.t }.
End PaymentMethod.

Module SetupIntent.
Record t : Type := { id : string; client_secret : string }.
End SetupIntent.

Record CustomerParams : Type := {
  cp_email : string; cp_name : string; cp_phone : string;
  cp_metadata : Metadata
}.

Record IntentParams : Type := {
  ip_amount : number; ip_currency : string;
  ip_automatic_payment_methods : bool;
  ip_metadata : Metadata
}.

Record RefundParams : Type := {
  rp_payment_intent : string; rp_reason : string; rp_metadata : Metadata
}.

Record SetupParams : Type := {
  sp_customer : string; sp_payment_method_types : list string;
  sp_metadata : Metadata
}.

Record Gateway : Type := {
  customers_create : CustomerParams -> result Customer.t;
  customers_update : string -> string -> result unit;
  paymentIntents_create : IntentParams -> result PaymentIntent.t;
  paymentIntents_confirm : string -> option string -> result PaymentIntent.t;
  paymentIntents_retrieve : string -> result PaymentIntent.t;
  refunds_create : RefundParams -> result Refund.t;
  setupIntents_create : SetupParams -> result SetupIntent.t;
  paymentMethods_attach : string -> string -> result unit;
  paymentMethods_list : string -> string -> result (list PaymentMethod.t)
}.

(** The object of a webhook event, with the fields the handlers read. *)
Module EventObject.
Record t : Type := {
  id : option string;
  payment_intent : option string;
  last_payment_error : option PaymentError.t
}.
End EventObject.

Module Event.
Record t : Type := { type : string; data_object : EventObject.t }.
End Event.

End Stripe.

(** ** The document store *)

(** Modelled from the spec: the models of the repository
    ([models/User.js], [models/Payment.js]) are not among the sources.
    The spec gives the user store and the payment store as keyed lookup
    and update (section 6) and the payment record's fields (section 3);
    a collection is the list of its documents in insertion order,
    [findOne] answers with the first document that satisfies the filter,
    saving a new document inserts it and saving a loaded one replaces the
    document of the same [_id]; saving a payment validates its status
    first ([Payment.validStatus]) and writes nothing when it throws. *)
Record Store : Type := {
  users : list User.t;
  payments : list Payment.t
}.

(** A computation that reads and writes the store and may throw; the
    store a throwing computation leaves is the one it had reached. *)
Definition M (A : Type) : Type := Store -> result A * Store.

Definition ret {A : Type} (a : A) : M A := fun st => (Ok a, st).

Definition bind {A B : Type} (c : M A) (k : A -> M B) : M B :=
  fun st =>
    match c st with
    | (Ok a, st') => k a st'
    | (Throw message, st') => (Throw message, st')
    end.

Definition throw {A : Type} (message : string) : M A :=
  fun st => (Throw message, st).

(** A call that does not touch the store. *)
Definition call {A : Type} (r : result A) : M A := fun st => (r, st).

(** [try { body } catch (error) { throw new Error(prefix + error.message) }] *)
Definition tryRethrow {A : Type} (prefix : string) (body : M A) : M A :=
  fun st => let (r, st') := body st in (rethrow prefix r, st').

Notation "x <- c1 ;; c2" := (bind c1 (fun x => c2))
  (at level 61, c1 at next level, right associativity).
Notation "c1 ;; c2" := (bind c1 (fun _ => c2))
  (at level 61, right associativity).

Module Users.
Definition findById (id : ObjectId) : M (option User.t) :=
  fun st => (Ok (find (fun u => User._id u =? id) (users st)), st).

Definition save (u : User.t) : M unit :=
  fun st =>
    (Ok tt,
     {| users := map (fun v => if User._id v =? User._id u then u else v)
                     (users st);
        payments := payments st |}).
End Users.

Module Payments.
(** [Payment.findOne({ stripePaymentIntentId: key })]; an absent key
    matches no document, since every payment has an intent id. *)
Definition findOne (key : option string) : M (option Payment.t) :=
  fun st =>
    (Ok match key with
        | Some intentId =>
            find (fun p => String.eqb (Payment.stripePaymentIntentId p) intentId)
                 (payments st)
        | None => None
        end, st).

Definition findById (id : ObjectId) : M (option Payment.t) :=
  fun st => (Ok (find (fun p => Payment._id p =? id) (payments st)), st).

(** [payment.save()] on a document just built with [new Payment]. *)
Definition insert (p : Payment.t) : M unit :=
  fun st =>
    if negb (Payment.validStatus (Payment.status p)) then
      (Throw (Payment.validationError (Payment.status p)), st)
    else if existsb (fun q => Payment._id q =? Payment._id p) (payments st) then
      (Throw "E11000 duplicate key error", st)
    else
      (Ok tt, {| users := users st; payments := payments st ++ [p] |}).

(** [payment.save()] on a document that was loaded from the store. *)
Definition save (p : Payment.t) : M unit :=
  fun st =>
    if negb (Payment.validStatus (Payment.status p)) then
      (Throw (Payment.validationError (Payment.status p)), st)
    else
      (Ok tt,
       {| users := users st;
          payments := map (fun q => if Payment._id q =? Payment._id p then p else q)
                          (payments st) |}).
End Payments.

(** ** The payment service *)

Module PaymentService.
Import Stripe.

(** The [faceData] argument of [processFacePayment]. *)
Module FaceData.
Record t : Type := {
  confidence : number;
  embeddingDistance : number;
  threshold : number;
  imageUrl : option string;
  ipAddress : option string;
  userAgent : option string
}.
End FaceData.

(** [{ id, name, email }], the user part of what [processFacePayment]
    returns. *)
Record UserSummary : Type := {
  summary_id : ObjectId;
  summary_name : string;
  summary_email : string
}.

(** [{ brand, last4, expMonth, expYear }] *)
Record CardView : Type := {
  view_brand : string;
  view_last4 : string;
  view_expMonth : Z;
  view_expYear : Z
}.

(** An item of what [getPaymentMethods] returns. *)
Record MethodView : Type := {
  view_id : string;
  view_type : string;
  view_card : option CardView;
  view_isDefault : bool
}.

Record FacePaymentResult : Type := {
  fp_paymentIntent : PaymentIntent.t;
  fp_payment : Payment.t;
  fp_user : UserSummary
}.

Section Service.

(** [this.stripe] *)
Variable stripe : Gateway.

(** What [new Date()] gives during the call. *)
Variable now : Date.

Definition createPaymentIntent (amount : number) (currency : option string)
    (metadata : option Metadata) : result PaymentIntent.t :=
  rethrow "Failed to create payment intent: "
    (paymentIntents_create stripe
       {| ip_amount := Math_round (mul amount (ofZ 100));
          ip_currency :=
            toLowerCase (match currency with Some c => c | None => "usd" end);
          ip_automatic_payment_methods := true;
          ip_metadata :=
            setKey "timestamp" (IsoText now)
              (setKey "source" (Text "facepay")
                 (match metadata with Some m => m | None => [] end)) |}).

(** The customer id of the user, created at the gateway and stored
    on the user when the user has none. *)
Definition ensureCustomer (user : User.t) : M string :=
  match User.stripeCustomerId user with
  | Some (String c rest) => ret (String c rest)
  | _ =>
      customer <- call (customers_create stripe
                          {| cp_email := User.email user;
                             cp_name := User.fullName user;
                             cp_phone := User.phone user;
                             cp_metadata :=
                               [("userId", IdText (User._id user));
                                ("source", Text "facepay")] |}) ;;
      Users.save (User.with_stripeCustomerId (Customer.id customer) user) ;;
      ret (Customer.id customer)
  end.

(** [newId] is the [_id] that [new Payment] gives the document. *)
Definition processFacePayment (newId : ObjectId) (userId : ObjectId)
    (amount : number) (currency : string) (description : string)
    (faceData : FaceData.t) (paymentMethod : option string)
  : M FacePaymentResult :=
  let paymentMethod :=
    match paymentMethod with Some m => m | None => "card" end in
  tryRethrow "Payment processing failed: "
    (found <- Users.findById userId ;;
     match found with
     | None => throw "User not found or inactive"
     | Some user =>
         if negb (User.isActive user) then
           throw "User not found or inactive"
         else
           stripeCustomerId <- ensureCustomer user ;;
           paymentIntent <-
             call (createPaymentIntent amount (Some currency)
                     (Some [("userId", IdText (User._id user));
                            ("description", Text description);
                            ("paymentMethod", Text paymentMethod);
                            ("faceConfidence",
                             NumberText (FaceData.confidence faceData));
                            ("faceDistance",
                             NumberText (FaceData.embeddingDistance faceData))])) ;;
           let payment :=
             {| Payment._id := newId;
                Payment.amount := Math_round (mul amount (ofZ 100));
                Payment.currency := toLowerCase currency;
                Payment.userId := User._id user;
                Payment.stripePaymentIntentId := PaymentIntent.id paymentIntent;
                Payment.stripeCustomerId := stripeCustomerId;
                Payment.faceRecognitionData :=
                  {| Payment.confidence := FaceData.confidence faceData;
                     Payment.embeddingDistance :=
                       FaceData.embeddingDistance faceData;
                     Payment.threshold := FaceData.threshold faceData;
                     Payment.imageUrl :=
                       if truthy (FaceData.imageUrl faceData)
                       then FaceData.imageUrl faceData else None |};
                Payment.paymentMethod := paymentMethod;
                Payment.description := description;
                Payment.status := "pending";
                Payment.ipAddress :=
                  orString (FaceData.ipAddress faceData) "unknown";
                Payment.userAgent :=
                  orString (FaceData.userAgent faceData) "unknown";
                Payment.createdAt := now;
                Payment.processedAt := None;
                Payment.failureReason := None;
                Payment.failureCode := None;
                Payment.refundedAt := None |} in
           Payments.insert payment ;;
           ret {| fp_paymentIntent := paymentIntent;
                  fp_payment := payment;
                  fp_user := {| summary_id := User._id user;
                                summary_name := User.fullName user;
                                summary_email := User.email user |} |}
     end).

(** [error?.message || fallback] *)
Definition errorMessage (e : option PaymentError.t) (fallback : string)
  : string :=
  orString (match e with Some err => PaymentError.message err | None => None end)
           fallback.

Definition errorCode (e : option PaymentError.t) (fallback : string)
  : string :=
  orString (match e with Some err => PaymentError.code err | None => None end)
           fallback.

Definition confirmPayment (paymentIntentId : string)
    (paymentMethodId : option string)
  : M (Payment.t * PaymentIntent.t) :=
  tryRethrow "Payment confirmation failed: "
    (found <- Payments.findOne (Some paymentIntentId) ;;
     match found with
     | None => throw "Payment not found"
     | Some payment =>
         paymentIntent <-
           call (paymentIntents_confirm stripe paymentIntentId paymentMethodId) ;;
         let payment :=
           Payment.with_status (PaymentIntent.status paymentIntent) payment in
         let payment :=
           if String.eqb (PaymentIntent.status paymentIntent) "succeeded" then
             Payment.with_processedAt now payment
           else if String.eqb (PaymentIntent.status paymentIntent) "failed" then
             Payment.with_failureCode
               (errorCode (PaymentIntent.last_payment_error paymentIntent)
                          "unknown")
               (Payment.with_failureReason
                  (errorMessage (PaymentIntent.last_payment_error paymentIntent)
                                "Payment failed")
                  payment)
           else payment in
         Payments.save payment ;;
         ret (payment, paymentIntent)
     end).

Definition refundPayment (paymentId : ObjectId) (reason : option string)
  : M (Payment.t * Refund.t) :=
  let reason :=
    match reason with Some r => r | None => "User requested refund" end in
  tryRethrow "Refund failed: "
    (found <- Payments.findById paymentId ;;
     match found with
     | None => throw "Payment not found"
     | Some payment =>
         if negb (String.eqb (Payment.status payment) "succeeded") then
           throw "Only successful payments can be refunded"
         else
           refund <-
             call (refunds_create stripe
                     {| rp_payment_intent := Payment.stripePaymentIntentId payment;
                        rp_reason := "requested_by_customer";
                        rp_metadata :=
                          [("reason", Text reason);
                           ("refundedBy", Text "facepay");
                           ("originalPaymentId",
                            IdText (Payment._id payment))] |}) ;;
           let payment :=
             Payment.with_refundedAt now
               (Payment.with_failureReason reason
                  (Payment.with_status "refunded" payment)) in
           Payments.save payment ;;
           ret (payment, refund)
     end).

Definition getPaymentStatus (paymentIntentId : string) : result string :=
  rethrow "Failed to get payment status: "
    match paymentIntents_retrieve stripe paymentIntentId with
    | Ok paymentIntent => Ok (PaymentIntent.status paymentIntent)
    | Throw message => Throw message
    end.

Definition handlePaymentSucceeded (paymentIntent : EventObject.t) : M unit :=
  found <- Payments.findOne (EventObject.id paymentIntent) ;;
  match found with
  | Some payment =>
      Payments.save
        (Payment.with_processedAt now (Payment.with_status "succeeded" payment))
  | None => ret tt
  end.

Definition handlePaymentFailed (paymentIntent : EventObject.t) : M unit :=
  found <- Payments.findOne (EventObject.id paymentIntent) ;;
  match found with
  | Some payment =>
      Payments.save
        (Payment.with_failureCode
           (errorCode (EventObject.last_payment_error paymentIntent) "unknown")
           (Payment.with_failureReason
              (errorMessage (EventObject.last_payment_error paymentIntent)
                            "Payment failed")
              (Payment.with_status "failed" payment)))
  | None => ret tt
  end.

Definition handleChargeRefunded (charge : EventObject.t) : M unit :=
  found <- Payments.findOne (EventObject.payment_intent charge) ;;
  match found with
  | Some payment =>
      Payments.save
        (Payment.with_refundedAt now (Payment.with_status "refunded" payment))
  | None => ret tt
  end.

(** The [catch] of [handleWebhook] logs and throws the error again,
    so a throwing handler throws from [handleWebhook] unchanged. *)
Definition handleWebhook (event : Event.t) : M unit :=
  if String.eqb (Event.type event) "payment_intent.succeeded" then
    handlePaymentSucceeded (Event.data_object event)
  else if String.eqb (Event.type event) "payment_intent.payment_failed" then
    handlePaymentFailed (Event.data_object event)
  else if String.eqb (Event.type event) "charge.refunded" then
    handleChargeRefunded (Event.data_object event)
  else ret tt.

Definition createSetupIntent (userId : ObjectId) : M SetupIntent.t :=
  tryRethrow "Failed to create setup intent: "
    (found <- Users.findById userId ;;
     match found with
     | None => throw "User not found"
     | Some user =>
         stripeCustomerId <- ensureCustomer user ;;
         call (setupIntents_create stripe
                 {| sp_customer := stripeCustomerId;
                    sp_payment_method_types := ["card"];
                    sp_metadata :=
                      [("userId", IdText (User._id user));
                       ("purpose", Text "facepay_payment_method")] |})
     end).

(** [{ success: true, paymentMethodId }] is returned as the id. *)
Definition attachPaymentMethod (userId : ObjectId) (paymentMethodId : string)
  : M string :=
  tryRethrow "Failed to attach payment method: "
    (found <- Users.findById userId ;;
     match found with
     | None => throw "User not found or no Stripe customer"
     | Some user =>
         match User.stripeCustomerId user with
         | Some (String c rest) =>
             call (paymentMethods_attach stripe paymentMethodId (String c rest)) ;;
             call (customers_update stripe (String c rest) paymentMethodId) ;;
             Users.save (User.with_defaultPaymentMethod paymentMethodId user) ;;
             ret paymentMethodId
         | _ => throw "User not found or no Stripe customer"
         end
     end).

(** [pm.id === user.defaultPaymentMethod] *)
Definition isDefaultMethod (pm : PaymentMethod.t) (user : User.t) : bool :=
  match User.defaultPaymentMethod user with
  | Some id => String.eqb (PaymentMethod.id pm) id
  | None => false
  end.

Definition getPaymentMethods (userId : ObjectId) : M (list MethodView) :=
  tryRethrow "Failed to get payment methods: "
    (found <- Users.findById userId ;;
     match found with
     | None => ret []
     | Some user =>
         match User.stripeCustomerId user with
         | Some (String c rest) =>
             paymentMethods <-
               call (paymentMethods_list stripe (String c rest) "card") ;;
             ret (map (fun pm =>
                         {| view_id := PaymentMethod.id pm;
                            view_type := PaymentMethod.type pm;
                            view_card :=
                              match PaymentMethod.card pm with
                              | Some card =>
                                  Some {| view_brand := Card.brand card;
                                          view_last4 := Card.last4 card;
                                          view_expMonth := Card.exp_month card;
                                          view_expYear := Card.exp_year card |}
                              | None => None
                              end;
                            view_isDefault := isDefaultMethod pm user |})
                      paymentMethods)
         | _ => ret []
         end
     end).

End Service.

End PaymentService.

(** ** Requests *)

(** The calls that write payments, each with the gateway that answers it
    and the time at which it runs; a history of the store is a list of
    them, served one after the other. *)
Module Requests.
Import Stripe.

Inductive Request : Type :=
| ProcessFacePayment (stripe : Gateway) (now : Date) (newId userId : ObjectId)
    (amount : number) (currency description : string)
    (faceData : PaymentService.FaceData.t) (paymentMethod : option string)
| ConfirmPayment (stripe : Gateway) (now : Date) (paymentIntentId : string)
    (paymentMethodId : option string)
| RefundPayment (stripe : Gateway) (now : Date) (paymentId : ObjectId)
    (reason : option string)
| HandleWebhook (now : Date) (event : Event.t).

(** The store after a request, whether the call returned or threw. *)
Definition serve (request : Request) (st : Store) : Store :=
  match request with
  | ProcessFacePayment stripe now newId userId amount currency description
      faceData paymentMethod =>
      snd (PaymentService.processFacePayment stripe now newId userId amount
             currency description faceData paymentMethod st)
  | ConfirmPayment stripe now paymentIntentId paymentMethodId =>
      snd (PaymentService.confirmPayment stripe now paymentIntentId
             paymentMethodId st)
  | RefundPayment stripe now paymentId reason =>
      snd (PaymentService.refundPayment stripe now paymentId reason st)
  | HandleWebhook now event =>
      snd (PaymentService.handleWebhook now event st)
  end.

Definition serveAll (requests : list Request) (st : Store) : Store :=
  fold_left (fun st request => serve request st) requests st.


(** The first payment of the store with the given intent id. *)
Definition lookup (key : option string) (st : Store) : option Payment.t :=
  match fst (Payments.findOne key st) with
  | Ok found => found
  | Throw _ => None
  end.

(** The store after [p'.save()]: with [p'] over the document of its id,
    or as it was when the validation throws. *)
Definition saved (p' : Payment.t) (st : Store) : Store :=
  snd (Payments.save p' st).

(** The payment of the store with the given [_id]. *)
Definition lookupId (id : ObjectId) (st : Store) : option Payment.t :=
  find (fun p => Payment._id p =? id) (payments st).

(** The payment as [confirmPayment] saves it: the status of the confirmed
    intent, with [processedAt] for [succeeded] and the failure fields for
    [failed]. *)
Definition confirmedPayment (now : Date) (paymentIntent : PaymentIntent.t)
    (payment : Payment.t) : Payment.t :=
  let payment :=
    Payment.with_status (PaymentIntent.status paymentIntent) payment in
  if String.eqb (PaymentIntent.status paymentIntent) "succeeded" then
    Payment.with_processedAt now payment
  else if String.eqb (PaymentIntent.status paymentIntent) "failed" then
    Payment.with_failureCode
      (PaymentService.errorCode
         (PaymentIntent.last_payment_error paymentIntent) "unknown")
      (Payment.with_failureReason
         (PaymentService.errorMessage
            (PaymentIntent.last_payment_error paymentIntent) "Payment failed")
         payment)
  else payment.

(** The payment as [refundPayment] saves it. *)
Definition refundedPayment (now : Date) (reason : option string)
    (payment : Payment.t) : Payment.t :=
  Payment.with_refundedAt now
    (Payment.with_failureReason
       (match reason with Some r => r | None => "User requested refund" end)
       (Payment.with_status "refunded" payment)).

(** What identifies a payment and what it charges: the fields that no
    operation of the service assigns after the payment was created. *)
Definition core (p : Payment.t)
  : ObjectId * number * string * ObjectId * string * string * Date :=
  (Payment._id p, Payment.amount p, Payment.currency p, Payment.userId p,
   Payment.stripePaymentIntentId p, Payment.stripeCustomerId p,
   Payment.createdAt p).

(** The value of a metadata key. *)
Fixpoint getKey (key : string) (metadata : Metadata) : option MetaValue :=
  match metadata with
  | [] => None
  | (k, v) :: rest => if String.eqb k key then Some v else getKey key rest
  end.

(** The user of the store with the given [_id]. *)
Definition lookupUser (id : ObjectId) (st : Store) : option User.t :=
  find (fun u => User._id u =? id) (users st).

(** The payments of the store have distinct ids. *)
Definition uniqueIds (st : Store) : Prop :=
  NoDup (map Payment._id (payments st)).

End Requests.

(** ** Sample data *)

Module Samples.
Import FaceRecognition.

(** An enrolled embedding of one dimension. *)
Definition enrolled (id : Z) (x : number) : StoredEmbedding :=
  {| _id := id; embedding := Some [x]; confidence := dec 9 10 |}.

(** An enrolled embedding of two dimensions. *)
Definition enrolled2 (id : Z) (x y : number) : StoredEmbedding :=
  {| _id := id; embedding := Some [x; y]; confidence := dec 9 10 |}.

(** The probe [0.4]: at similarity 0.7 of [0.1], 0.6 of [0] and 0.4
    of [1]. *)
Definition probe : list number := [dec 4 10].

(** A raw buffer of 100 x 100 pixels, every byte [v]. *)
Definition uniformImage (v : Z) : list Z := repeat v (Z.to_nat 30000).

(** The same with four channels. *)
Definition uniformImage4 (v : Z) : list Z := repeat v (Z.to_nat 40000).

(** A gateway that answers every call; [confirmed] is the status it
    reports for a confirmed intent. *)
Definition gateway (confirmed : string) : Stripe.Gateway :=
  {| Stripe.customers_create :=
       fun _ => Ok {| Stripe.Customer.id := "cus_1" |};
     Stripe.customers_update := fun _ _ => Ok tt;
     Stripe.paymentIntents_create :=
       fun _ => Ok {| Stripe.PaymentIntent.id := "pi_1";
                      Stripe.PaymentIntent.status := "requires_payment_method";
                      Stripe.PaymentIntent.client_secret := "pi_1_secret";
                      Stripe.PaymentIntent.last_payment_error := None |};
     Stripe.paymentIntents_confirm :=
       fun id _ => Ok {| Stripe.PaymentIntent.id := id;
                         Stripe.PaymentIntent.status := confirmed;
                         Stripe.PaymentIntent.client_secret := "pi_1_secret";
                         Stripe.PaymentIntent.last_payment_error := None |};
     Stripe.paymentIntents_retrieve :=
       fun id => Ok {| Stripe.PaymentIntent.id := id;
                       Stripe.PaymentIntent.status := confirmed;
                       Stripe.PaymentIntent.client_secret := "pi_1_secret";
                       Stripe.PaymentIntent.last_payment_error := None |};
     Stripe.refunds_create :=
       fun _ => Ok {| Stripe.Refund.id := "re_1";
                      Stripe.Refund.amount := ofZ 2550;
                      Stripe.Refund.status := "succeeded" |};
     Stripe.setupIntents_create :=
       fun _ => Ok {| Stripe.SetupIntent.id := "seti_1";
                      Stripe.SetupIntent.client_secret := "seti_1_secret" |};
     Stripe.paymentMethods_attach := fun _ _ => Ok tt;
     Stripe.paymentMethods_list := fun _ _ => Ok [] |}.

(** A gateway that refuses to create intents and refunds. *)
Definition refusingGateway : Stripe.Gateway :=
  {| Stripe.customers_create :=
       Stripe.customers_create (gateway "succeeded");
     Stripe.customers_update :=
       Stripe.customers_update (gateway "succeeded");
     Stripe.paymentIntents_create := fun _ => Throw "card network down";
     Stripe.paymentIntents_confirm := fun _ _ => Throw "card network down";
     Stripe.paymentIntents_retrieve :=
       Stripe.paymentIntents_retrieve (gateway "succeeded");
     Stripe.refunds_create := fun _ => Throw "card network down";
     Stripe.setupIntents_create :=
       Stripe.setupIntents_create (gateway "succeeded");
     Stripe.paymentMethods_attach :=
       Stripe.paymentMethods_attach (gateway "succeeded");
     Stripe.paymentMethods_list :=
       Stripe.paymentMethods_list (gateway "succeeded") |}.

(** A gateway that lists two cards for every customer. *)
Definition cardGateway : Stripe.Gateway :=
  {| Stripe.customers_create :=
       Stripe.customers_create (gateway "succeeded");
     Stripe.customers_update :=
       Stripe.customers_update (gateway "succeeded");
     Stripe.paymentIntents_create :=
       Stripe.paymentIntents_create (gateway "succeeded");
     Stripe.paymentIntents_confirm :=
       Stripe.paymentIntents_confirm (gateway "succeeded");
     Stripe.paymentIntents_retrieve :=
       Stripe.paymentIntents_retrieve (gateway "succeeded");
     Stripe.refunds_create := Stripe.refunds_create (gateway "succeeded");
     Stripe.setupIntents_create :=
       Stripe.setupIntents_create (gateway "succeeded");
     Stripe.paymentMethods_attach :=
       Stripe.paymentMethods_attach (gateway "succeeded");
     Stripe.paymentMethods_list :=
       fun _ _ =>
         Ok [{| Stripe.PaymentMethod.id := "pm_1";
                Stripe.PaymentMethod.type := "card";
                Stripe.PaymentMethod.card :=
                  Some {| Stripe.Card.brand := "visa";
                          Stripe.Card.last4 := "4242";
                          Stripe.Card.exp_month := 12;
                          Stripe.Card.exp_year := 2030 |} |};
             {| Stripe.PaymentMethod.id := "pm_2";
                Stripe.PaymentMethod.type := "card";
                Stripe.PaymentMethod.card := None |}] |}.

Definition alice : User.t :=
  {| User._id := 1; User.email := "alice@example.com";
     User.fullName := "Alice Doe"; User.phone := "+1234567890";
     User.isActive := true; User.stripeCustomerId := Some "cus_1";
     User.defaultPaymentMethod := None |}.

Definition faceData : PaymentService.FaceData.t :=
  {| PaymentService.FaceData.confidence := dec 9 10;
     PaymentService.FaceData.embeddingDistance := dec 3 10;
     PaymentService.FaceData.threshold := dec 6 10;
     PaymentService.FaceData.imageUrl := Some "payment_1.jpg";
     PaymentService.FaceData.ipAddress := None;
     PaymentService.FaceData.userAgent := None |}.

(** A store with one user and no payment. *)
Definition emptyStore : Store := {| users := [alice]; payments := [] |}.

(** The store after Alice's payment of 25.50 usd was created at time
    1000 under the id 7: one pending payment of the intent [pi_1]. *)
Definition pendingStore : Store :=
  snd (PaymentService.processFacePayment (gateway "succeeded") 1000 7 1
         (dec 2550 100) "usd" "Coffee purchase" faceData None emptyStore).


(** The event of the given type for the intent [pi_1]. *)
Definition event (type : string) : Stripe.Event.t :=
  {| Stripe.Event.type := type;
     Stripe.Event.data_object :=
       {| Stripe.EventObject.id := Some "pi_1";
          Stripe.EventObject.payment_intent := Some "pi_1";
          Stripe.EventObject.last_payment_error := None |} |}.

End Samples.

(** * Properties *)

(** ** The order of numbers *)

Module NumFacts.

Lemma compare_rank (x y : number) (a b : Z * Z * Z) :
  rank x = Some a -> rank y = Some b ->
  SFcompare x y = Some (lexCompare a b).
Proof.
  destruct x as [sx | sx | | sx mx ex], y as [sy | sy | | sy my ey];
    try destruct sx; try destruct sy; simpl; intros Ha Hb;
    inversion Ha; inversion Hb; subst; simpl; try reflexivity.
  rewrite Z.compare_opp, (Z.compare_antisym ex ey).
  destruct (ex ?= ey); reflexivity.
Qed.

Lemma compare_nan (x y : number) :
  rank x = None \/ rank y = None -> SFcompare x y = None.
Proof.
  destruct x as [sx | sx | | sx mx ex], y as [sy | sy | | sy my ey];
    try destruct sx; try destruct sy; simpl; intros [H | H];
    try discriminate; reflexivity.
Qed.

Lemma rank_isNaN (x : number) : rank x = None <-> isNaN x = true.
Proof.
  destruct x as [sx | sx | | sx mx ex]; try destruct sx; simpl;
    split; intros H; try discriminate; reflexivity.
Qed.

Lemma lexCompare_spec (a b : Z * Z * Z) :
  match lexCompare a b with
  | Lt => lexLt a b
  | Eq => a = b
  | Gt => lexLt b a
  end.
Proof.
  destruct a as [[a1 a2] a3], b as [[b1 b2] b3]; simpl.
  destruct (Z.compare_spec a1 b1); [ | lia | lia ].
  destruct (Z.compare_spec a2 b2); [ | lia | lia ].
  destruct (Z.compare_spec a3 b3); [ subst; reflexivity | lia | lia ].
Qed.

Lemma lexLt_irrefl (a : Z * Z * Z) : ~ lexLt a a.
Proof. destruct a as [[a1 a2] a3]; simpl; lia. Qed.

Lemma lexLt_trans (a b c : Z * Z * Z) : lexLt a b -> lexLt b c -> lexLt a c.
Proof.
  destruct a as [[a1 a2] a3], b as [[b1 b2] b3], c as [[c1 c2] c3];
    simpl; lia.
Qed.

Lemma lt_rank (x y : number) :
  lt x y = true <->
  exists a b, rank x = Some a /\ rank y = Some b /\ lexLt a b.
Proof.
  unfold lt, SFltb. split.
  - destruct (rank x) as [a |] eqn:Hx.
    + destruct (rank y) as [b |] eqn:Hy.
      * rewrite (compare_rank x y a b Hx Hy).
        pose proof (lexCompare_spec a b) as Hs.
        destruct (lexCompare a b); try discriminate.
        intros _. exists a, b. auto.
      * rewrite (compare_nan x y (or_intror Hy)). discriminate.
    + rewrite (compare_nan x y (or_introl Hx)). discriminate.
  - intros (a & b & Hx & Hy & Hlt).
    rewrite (compare_rank x y a b Hx Hy).
    pose proof (lexCompare_spec a b) as Hs.
    destruct (lexCompare a b); try reflexivity.
    + subst. elim (lexLt_irrefl b Hlt).
    + elim (lexLt_irrefl a (lexLt_trans _ _ _ Hlt Hs)).
Qed.

Lemma le_rank (x y : number) :
  le x y = true <->
  exists a b, rank x = Some a /\ rank y = Some b /\ (lexLt a b \/ a = b).
Proof.
  unfold le, SFleb. split.
  - destruct (rank x) as [a |] eqn:Hx.
    + destruct (rank y) as [b |] eqn:Hy.
      * rewrite (compare_rank x y a b Hx Hy).
        pose proof (lexCompare_spec a b) as Hs.
        destruct (lexCompare a b); try discriminate;
          intros _; exists a, b; auto.
      * rewrite (compare_nan x y (or_intror Hy)). discriminate.
    + rewrite (compare_nan x y (or_introl Hx)). discriminate.
  - intros (a & b & Hx & Hy & Hle).
    rewrite (compare_rank x y a b Hx Hy).
    pose proof (lexCompare_spec a b) as Hs.
    destruct (lexCompare a b); try reflexivity.
    destruct Hle as [Hlt | Heq].
    + elim (lexLt_irrefl a (lexLt_trans _ _ _ Hlt Hs)).
    + subst. elim (lexLt_irrefl b Hs).
Qed.

Lemma lt_trans (x y z : number) :
  lt x y = true -> lt y z = true -> lt x z = true.
Proof.
  rewrite !lt_rank. intros (a & b & Ha & Hb & Hab) (b' & c & Hb' & Hc & Hbc).
  rewrite Hb in Hb'; inversion Hb'; subst b'.
  exists a, c. eauto using lexLt_trans.
Qed.

Lemma lt_le_trans (x y z : number) :
  lt x y = true -> le y z = true -> lt x z = true.
Proof.
  rewrite !lt_rank, le_rank.
  intros (a & b & Ha & Hb & Hab) (b' & c & Hb' & Hc & Hbc).
  rewrite Hb in Hb'; inversion Hb'; subst b'.
  exists a, c. repeat split; auto.
  destruct Hbc as [Hbc | Hbc]; [ eauto using lexLt_trans | subst; auto ].
Qed.

Lemma lt_not_le (x y : number) : lt x y = true -> le y x = false.
Proof.
  intros Hlt. destruct (le y x) eqn:Hle; [ | reflexivity ].
  pose proof (lt_le_trans _ _ _ Hlt Hle) as Hxx.
  apply lt_rank in Hxx. destruct Hxx as (a & b & Ha & Hb & Hab).
  rewrite Ha in Hb; inversion Hb; subst. elim (lexLt_irrefl b Hab).
Qed.

Lemma le_not_lt (x y : number) : le x y = true -> lt y x = false.
Proof.
  intros Hle. destruct (lt y x) eqn:Hlt; [ | reflexivity ].
  rewrite (lt_not_le _ _ Hlt) in Hle. discriminate.
Qed.

(** Two numbers that are not NaN are comparable. *)
Lemma lt_total (x y : number) :
  isNaN x = false -> isNaN y = false -> lt x y = true \/ le y x = true.
Proof.
  intros Hx Hy.
  destruct (rank x) as [a |] eqn:Ha;
    [ | apply rank_isNaN in Ha; congruence ].
  destruct (rank y) as [b |] eqn:Hb;
    [ | apply rank_isNaN in Hb; congruence ].
  pose proof (lexCompare_spec a b) as Hs.
  destruct (lexCompare a b).
  - right. apply le_rank. exists b, a. auto.
  - left. apply lt_rank. exists a, b. auto.
  - right. apply le_rank. exists b, a. auto.
Qed.

Lemma lt_not_nan (x y : number) :
  lt x y = true -> isNaN x = false /\ isNaN y = false.
Proof.
  rewrite lt_rank. intros (a & b & Ha & Hb & _).
  split.
  - destruct (isNaN x) eqn:H; [ | reflexivity ].
    apply rank_isNaN in H. congruence.
  - destruct (isNaN y) eqn:H; [ | reflexivity ].
    apply rank_isNaN in H. congruence.
Qed.

Lemma lt_le (x y : number) : lt x y = true -> le x y = true.
Proof.
  rewrite lt_rank, le_rank. intros (a & b & Ha & Hb & Hab).
  exists a, b. auto.
Qed.

Lemma le_lt_trans (x y z : number) :
  le x y = true -> lt y z = true -> lt x z = true.
Proof.
  rewrite !lt_rank, le_rank.
  intros (a & b & Ha & Hb & Hab) (b' & c & Hb' & Hc & Hbc).
  rewrite Hb in Hb'; inversion Hb'; subst b'.
  exists a, c. repeat split; auto.
  destruct Hab as [Hab | Hab]; [ eauto using lexLt_trans | subst; auto ].
Qed.

Lemma le_trans (x y z : number) :
  le x y = true -> le y z = true -> le x z = true.
Proof.
  rewrite !le_rank.
  intros (a & b & Ha & Hb & Hab) (b' & c & Hb' & Hc & Hbc).
  rewrite Hb in Hb'; inversion Hb'; subst b'.
  exists a, c. repeat split; auto.
  destruct Hab as [Hab | ->]; destruct Hbc as [Hbc | <-]; auto.
  left. eauto using lexLt_trans.
Qed.

Lemma le_not_nan (x y : number) :
  le x y = true -> isNaN x = false /\ isNaN y = false.
Proof.
  rewrite le_rank. intros (a & b & Ha & Hb & _).
  split.
  - destruct (isNaN x) eqn:H; [ | reflexivity ].
    apply rank_isNaN in H. congruence.
  - destruct (isNaN y) eqn:H; [ | reflexivity ].
    apply rank_isNaN in H. congruence.
Qed.

End NumFacts.

(** ** Arithmetic of numbers *)

Module ArithFacts.

(** The sign given to the rounding of a mantissa changes the result in
    its sign only. *)
Lemma binary_round_aux_abs (s s' : bool) (m e : Z) (l : location) :
  SFabs (binary_round_aux prec emax s m e l) =
  SFabs (binary_round_aux prec emax s' m e l).
Proof.
  unfold binary_round_aux.
  destruct (shr_fexp prec emax m e l) as [mrs1 e1].
  destruct (shr_fexp prec emax _ e1 loc_Exact) as [mrs2 e2].
  destruct (shr_m mrs2); try reflexivity.
  destruct (e2 <=? emax - prec); reflexivity.
Qed.

Lemma binary_round_abs (s s' : bool) (m : positive) (e : Z) :
  SFabs (binary_round prec emax s m e) = SFabs (binary_round prec emax s' m e).
Proof.
  unfold binary_round.
  destruct (shl_align m e _) as [mz ez].
  apply binary_round_aux_abs.
Qed.

Lemma binary_normalize_opp_abs (z e : Z) :
  SFabs (binary_normalize prec emax (- z) e false) =
  SFabs (binary_normalize prec emax z e false).
Proof.
  destruct z; simpl; try reflexivity; apply binary_round_abs.
Qed.

(** [x - y] and [y - x] differ in their sign only. *)
Lemma sub_abs_comm (x y : number) : SFabs (sub x y) = SFabs (sub y x).
Proof.
  destruct x as [sx | sx | | sx mx ex], y as [sy | sy | | sy my ey];
    try destruct sx; try destruct sy; try reflexivity;
    unfold sub, SFsub; rewrite (Z.min_comm ey ex);
    match goal with
    | |- SFabs (binary_normalize _ _ (?a - ?b) _ _) = _ =>
        replace (a - b) with (- (b - a)) by ring
    end; apply binary_normalize_opp_abs.
Qed.

(** The square does not see the sign. *)
Lemma pow2_abs (x y : number) :
  SFabs x = SFabs y -> Math_pow2 x = Math_pow2 y.
Proof.
  destruct x as [sx | sx | | sx mx ex], y as [sy | sy | | sy my ey];
    simpl; intros H; inversion H; subst;
    try destruct sx; try destruct sy; reflexivity.
Qed.

Lemma pow2_sub_comm (x y : number) :
  Math_pow2 (sub x y) = Math_pow2 (sub y x).
Proof. apply pow2_abs, sub_abs_comm. Qed.

(** A number that is neither an infinity nor NaN. *)
Lemma sub_diag (x : number) : isFinite x = true -> sub x x = S754_zero false.
Proof.
  destruct x as [s | s | | s m e]; try discriminate; intros _.
  - destruct s; reflexivity.
  - unfold sub, SFsub. rewrite Z.sub_diag. reflexivity.
Qed.

(** A square root is never below zero, and neither is a maximum with
    zero. *)
Lemma sqrt_not_negative (x : number) : lt (Math_sqrt x) (ofZ 0) = false.
Proof.
  destruct x as [s | s | | s m e]; try destruct s; try reflexivity.
  unfold Math_sqrt, SFsqrt.
  destruct (SFsqrt_core_binary prec emax (Z.pos m) e) as [[mz ez] lz].
  unfold binary_round_aux.
  destruct (shr_fexp prec emax mz ez lz) as [mrs1 e1].
  destruct (shr_fexp prec emax _ e1 loc_Exact) as [mrs2 e2].
  destruct (shr_m mrs2); try reflexivity.
  destruct (e2 <=? emax - prec); reflexivity.
Qed.

Lemma max_zero_not_negative (x : number) :
  lt (Math_max (ofZ 0) x) (ofZ 0) = false.
Proof.
  destruct x as [s | s | | s m e]; try destruct s; reflexivity.
Qed.

End ArithFacts.

(** ** Comparing embeddings *)

Module FaceRecognitionFacts.
Import FaceRecognition NumFacts.

Lemma compareFaces_present (threshold : number) (e1 e2 : list number) :
  compareFaces threshold (Some e1) (Some e2) =
  if Nat.eqb (List.length e1) (List.length e2)
  then Ok (compared threshold e1 e2)
  else Throw "Face comparison failed: Embeddings must have the same length".
Proof.
  unfold compareFaces, compared.
  destruct (Nat.eqb (List.length e1) (List.length e2)); reflexivity.
Qed.

Lemma compareFaces_Ok_inv (threshold : number)
    (embedding1 embedding2 : option (list number)) (r : Comparison) :
  compareFaces threshold embedding1 embedding2 = Ok r ->
  exists e1 e2,
    embedding1 = Some e1 /\ embedding2 = Some e2 /\
    List.length e1 = List.length e2 /\ r = compared threshold e1 e2.
Proof.
  destruct embedding1 as [e1 |], embedding2 as [e2 |];
    try (unfold compareFaces; simpl; discriminate).
  rewrite compareFaces_present.
  destruct (Nat.eqb (List.length e1) (List.length e2)) eqn:Hlen;
    [ | discriminate ].
  intros H; inversion H; subst.
  exists e1, e2. apply Nat.eqb_eq in Hlen. auto.
Qed.

Lemma compareFaces_Throw_inv (threshold : number)
    (embedding1 embedding2 : option (list number)) (message : string) :
  compareFaces threshold embedding1 embedding2 = Throw message ->
  exists inner, message = "Face comparison failed: " ++ inner.
Proof.
  destruct embedding1 as [e1 |], embedding2 as [e2 |];
    try (unfold compareFaces; simpl; intros H; inversion H; eexists;
         reflexivity).
  rewrite compareFaces_present.
  destruct (Nat.eqb (List.length e1) (List.length e2)); [ discriminate | ].
  intros H; inversion H. eexists. reflexivity.
Qed.

(** The similarity of a comparison does not depend on the threshold. *)
Lemma similarity_compared (t1 t2 : number) (e1 e2 : list number) :
  similarity (compared t1 e1 e2) = similarity (compared t2 e1 e2).
Proof. reflexivity. Qed.

(** C4, as the code has it: [compareFaces] throws exactly when one of
    the two embeddings is missing or their lengths differ; the message
    tells the two cases apart, and no comparison result is returned.
    Two present vectors of one length, the empty ones included, are
    compared. *)
Theorem compareFaces_throws_iff (threshold : number)
    (embedding1 embedding2 : option (list number)) :
  (compareFaces threshold embedding1 embedding2 =
     Throw "Face comparison failed: Both embeddings are required for comparison"
   <-> embedding1 = None \/ embedding2 = None) /\
  (compareFaces threshold embedding1 embedding2 =
     Throw "Face comparison failed: Embeddings must have the same length"
   <-> exists e1 e2, embedding1 = Some e1 /\ embedding2 = Some e2 /\
                     List.length e1 <> List.length e2) /\
  (isOk (compareFaces threshold embedding1 embedding2) = true
   <-> exists e1 e2, embedding1 = Some e1 /\ embedding2 = Some e2 /\
                     List.length e1 = List.length e2).
Proof.
  destruct embedding1 as [e1 |], embedding2 as [e2 |].
  - rewrite compareFaces_present.
    destruct (Nat.eqb (List.length e1) (List.length e2)) eqn:Hlen.
    + apply Nat.eqb_eq in Hlen. repeat split; simpl.
      * discriminate.
      * intros [H | H]; discriminate.
      * discriminate.
      * intros (a & b & Ha & Hb & Hne). inversion Ha; inversion Hb; subst.
        contradiction.
      * intros _. eauto.
    + apply Nat.eqb_neq in Hlen. repeat split; simpl.
      * discriminate.
      * intros [H | H]; discriminate.
      * intros _. eauto.
      * discriminate.
      * intros (a & b & Ha & Hb & He). inversion Ha; inversion Hb; subst.
        contradiction.
  - unfold compareFaces; simpl. repeat split; auto; try discriminate.
    + intros (a & b & _ & Hb & _). discriminate.
    + intros (a & b & _ & Hb & _). discriminate.
  - unfold compareFaces; simpl. repeat split; auto; try discriminate.
    + intros (a & b & Ha & _). discriminate.
    + intros (a & b & Ha & _). discriminate.
  - unfold compareFaces; simpl. repeat split; auto; try discriminate.
    + intros (a & b & Ha & _). discriminate.
    + intros (a & b & Ha & _). discriminate.
Qed.

(** C4, the input on which the claim fails: two empty vectors are
    compared without an error, at distance 0 and similarity 1, and the
    verdict under the default threshold is a match. *)
Lemma compareFaces_empty_vectors_match :
  compareFaces defaultThreshold (Some []) (Some []) =
  Ok {| distance := ofZ 0; similarity := ofZ 1; isMatch := true |}.
Proof. vm_compute. reflexivity. Qed.

(** C8: the verdict of a comparison is [similarity >= threshold]; under
    the default threshold 0.6 a similarity of exactly 0.6 is a match and
    a similarity below 0.6 is not. *)
Theorem compareFaces_isMatch_threshold (threshold : number)
    (embedding1 embedding2 : option (list number)) (r : Comparison)
    (Hcompared : compareFaces threshold embedding1 embedding2 = Ok r) :
  isMatch r = ge (similarity r) threshold /\
  (threshold = defaultThreshold ->
   (similarity r = dec 6 10 -> isMatch r = true) /\
   (lt (similarity r) (dec 6 10) = true -> isMatch r = false)).
Proof.
  apply compareFaces_Ok_inv in Hcompared.
  destruct Hcompared as (e1 & e2 & _ & _ & _ & ->).
  split; [ reflexivity | ].
  intros ->. split.
  - cbn [compared isMatch similarity]. intros ->. vm_compute. reflexivity.
  - cbn [compared isMatch similarity]. intros Hlt.
    apply lt_not_le in Hlt. exact Hlt.
Qed.

(** A pair at similarity exactly 0.6, and its verdict. *)
Lemma compareFaces_isMatch_threshold_witness :
  similarity (compared defaultThreshold [dec 4 10] [ofZ 0]) = dec 6 10 /\
  isMatch (compared defaultThreshold [dec 4 10] [ofZ 0]) = true.
Proof.
  split; [ vm_compute; reflexivity | ].
  refine (proj1 (proj2 (compareFaces_isMatch_threshold defaultThreshold
                          (Some [dec 4 10]) (Some [ofZ 0]) _ _) _) _).
  - vm_compute. reflexivity.
  - reflexivity.
  - vm_compute. reflexivity.
Defined.

(** ** The best-match scan *)

Lemma scan_cons (threshold : number) (probe : option (list number))
    (c : StoredEmbedding) (rest : list StoredEmbedding)
    (best : option BestMatch) (bs : number) :
  scan threshold probe (c :: rest) best bs =
  match compareFaces threshold probe (embedding c) with
  | Throw message => Throw message
  | Ok r =>
      if gt (similarity r) bs
      then scan threshold probe rest (Some (retained c r)) (similarity r)
      else scan threshold probe rest best bs
  end.
Proof. reflexivity. Qed.

(** One failing comparison anywhere in the list makes the scan throw. *)
Lemma scan_throws (threshold : number) (probe : option (list number))
    (cands : list StoredEmbedding) (c : StoredEmbedding) :
  In c cands ->
  isOk (compareFaces threshold probe (embedding c)) = false ->
  forall best bs, isOk (scan threshold probe cands best bs) = false.
Proof.
  induction cands as [| d rest IH]; intros Hin Hc best bs.
  - destruct Hin.
  - rewrite scan_cons.
    destruct (compareFaces threshold probe (embedding d)) as [r |] eqn:Hd;
      [ | reflexivity ].
    destruct Hin as [-> | Hin]; [ rewrite Hd in Hc; discriminate | ].
    destruct (gt (similarity r) bs); apply IH; assumption.
Qed.

(** When every comparison succeeds the scan returns. *)
Lemma scan_returns (threshold : number) (probe : option (list number))
    (cands : list StoredEmbedding) :
  (forall c, In c cands ->
             isOk (compareFaces threshold probe (embedding c)) = true) ->
  forall best bs, isOk (scan threshold probe cands best bs) = true.
Proof.
  induction cands as [| d rest IH]; intros Hall best bs.
  - reflexivity.
  - rewrite scan_cons.
    pose proof (Hall d (or_introl eq_refl)) as Hd.
    destruct (compareFaces threshold probe (embedding d)) as [r |];
      [ | discriminate ].
    destruct (gt (similarity r) bs); apply IH;
      intros c Hc; apply Hall; right; assumption.
Qed.

(** What the scan has when it ends: the match it started with, if no
    candidate was more similar than the starting similarity, or else the
    first of the candidates of greatest similarity. *)
Lemma scan_result (threshold : number) (probe : option (list number))
    (cands : list StoredEmbedding) :
  forall (best : option BestMatch) (bs : number) (res : option BestMatch),
    scan threshold probe cands best bs = Ok res ->
    (res = best /\
     forall c, In c cands ->
       exists r, compareFaces threshold probe (embedding c) = Ok r /\
                 gt (similarity r) bs = false)
    \/
    (exists l1 c l2 r,
       cands = (l1 ++ c :: l2)%list /\
       compareFaces threshold probe (embedding c) = Ok r /\
       res = Some (retained c r) /\
       gt (similarity r) bs = true /\
       (forall c', In c' l1 ->
          exists r', compareFaces threshold probe (embedding c') = Ok r' /\
                     ge (similarity r') (similarity r) = false) /\
       (forall c', In c' l2 ->
          exists r', compareFaces threshold probe (embedding c') = Ok r' /\
                     gt (similarity r') (similarity r) = false)).
Proof.
  induction cands as [| d rest IH]; intros best bs res Hscan.
  - left. inversion Hscan; subst. split; [ reflexivity | intros c [] ].
  - rewrite scan_cons in Hscan.
    destruct (compareFaces threshold probe (embedding d)) as [rd |] eqn:Hd;
      [ | discriminate ].
    destruct (gt (similarity rd) bs) eqn:Hgt.
    + right. apply IH in Hscan.
      destruct Hscan as [[-> Hrest] | (l1 & c & l2 & r & -> & Hc & -> & Hr & H1 & H2)].
      * exists [], d, rest, rd. repeat split; auto. intros c' [].
      * exists (d :: l1), c, l2, r. repeat split; auto.
        -- unfold gt in *. eapply lt_trans; eassumption.
        -- intros c' [<- | Hin]; [ | auto ].
           exists rd. split; [ assumption | ].
           unfold ge, gt in *. apply lt_not_le. assumption.
    + apply IH in Hscan.
      destruct Hscan as [[-> Hrest] | (l1 & c & l2 & r & -> & Hc & -> & Hr & H1 & H2)].
      * left. split; [ reflexivity | ].
        intros c [<- | Hin]; [ exists rd; auto | auto ].
      * right. exists (d :: l1), c, l2, r. repeat split; auto.
        intros c' [<- | Hin]; [ | auto ].
        exists rd. split; [ assumption | ].
        unfold ge, gt in *.
        destruct (SFleb (similarity r) (similarity rd)) eqn:Hle; [ | reflexivity ].
        pose proof (lt_le_trans _ _ _ Hr Hle) as Hlt. unfold lt in Hlt.
        rewrite Hlt in Hgt. discriminate.
Qed.

(** What [findBestMatch] does with the outcome of the scan. *)
Lemma findBestMatch_scan (threshold : number) (probe : option (list number))
    (cands : list StoredEmbedding) :
  findBestMatch threshold probe cands =
  match scan threshold probe cands None (ofZ 0) with
  | Throw message => Throw ("Best match search failed: " ++ message)
  | Ok None => Ok None
  | Ok (Some best) =>
      Ok (if ge (matchSimilarity best) threshold then Some best else None)
  end.
Proof.
  unfold findBestMatch.
  destruct (scan threshold probe cands None (ofZ 0)) as [[best |] |];
    reflexivity.
Qed.

(** The scan started by [findBestMatch] retains a candidate only with
    the similarity and distance of its own comparison. *)
Lemma scan_from_zero (threshold : number) (probe : option (list number))
    (cands : list StoredEmbedding) (m : BestMatch) :
  scan threshold probe cands None (ofZ 0) = Ok (Some m) ->
  exists l1 c l2 r,
    cands = (l1 ++ c :: l2)%list /\
    compareFaces threshold probe (embedding c) = Ok r /\
    m = retained c r /\
    gt (similarity r) (ofZ 0) = true /\
    (forall c', In c' l1 ->
       exists r', compareFaces threshold probe (embedding c') = Ok r' /\
                  ge (similarity r') (similarity r) = false) /\
    (forall c', In c' l2 ->
       exists r', compareFaces threshold probe (embedding c') = Ok r' /\
                  gt (similarity r') (similarity r) = false).
Proof.
  intros Hscan. apply scan_result in Hscan.
  destruct Hscan as [[Hnone _] | (l1 & c & l2 & r & Hc & Hr & Hm & Hrest)].
  - discriminate.
  - inversion Hm; subst. exists l1, c, l2, r. auto.
Qed.

Lemma findBestMatch_Some_inv (threshold : number)
    (probe : option (list number)) (cands : list StoredEmbedding)
    (m : BestMatch) :
  findBestMatch threshold probe cands = Ok (Some m) ->
  scan threshold probe cands None (ofZ 0) = Ok (Some m) /\
  ge (matchSimilarity m) threshold = true.
Proof.
  rewrite findBestMatch_scan.
  destruct (scan threshold probe cands None (ofZ 0)) as [[best |] |];
    try discriminate.
  destruct (ge (matchSimilarity best) threshold) eqn:Hge; try discriminate.
  intros H; inversion H; subst. auto.
Qed.

(** C5: [findBestMatch] returns [null] for an empty candidate list; a
    candidate it returns is one of the list, carries the similarity of its
    own comparison with the probe, and that similarity is at least the
    threshold, never below it; and when every candidate compares below the
    threshold the result is [null], whichever of them is closest. *)
Theorem findBestMatch_never_below_threshold (threshold : number)
    (probe : option (list number)) (cands : list StoredEmbedding) :
  findBestMatch threshold probe [] = Ok None /\
  (forall m, findBestMatch threshold probe cands = Ok (Some m) ->
     In (stored m) cands /\
     exists r, compareFaces threshold probe (embedding (stored m)) = Ok r /\
               matchSimilarity m = similarity r /\
               ge (similarity r) threshold = true /\
               lt (similarity r) threshold = false) /\
  ((forall c, In c cands ->
      exists r, compareFaces threshold probe (embedding c) = Ok r /\
                lt (similarity r) threshold = true) ->
   findBestMatch threshold probe cands = Ok None).
Proof.
  split; [ reflexivity | split ].
  - intros m Hm. apply findBestMatch_Some_inv in Hm. destruct Hm as [Hscan Hge].
    apply scan_from_zero in Hscan.
    destruct Hscan as (l1 & c & l2 & r & -> & Hc & -> & _).
    split.
    + apply in_or_app. right. left. reflexivity.
    + exists r. cbn [retained stored matchSimilarity] in *.
      repeat split; auto.
      apply le_not_lt. exact Hge.
  - intros Hall. rewrite findBestMatch_scan.
    assert (Hret : isOk (scan threshold probe cands None (ofZ 0)) = true).
    { apply scan_returns. intros c Hc.
      destruct (Hall c Hc) as (r & -> & _). reflexivity. }
    destruct (scan threshold probe cands None (ofZ 0)) as [[best |] |] eqn:Hscan;
      [ | reflexivity | discriminate ].
    apply scan_from_zero in Hscan.
    destruct Hscan as (l1 & c & l2 & r & -> & Hc & -> & _).
    assert (Hin : In c (l1 ++ c :: l2)%list)
      by (apply in_or_app; right; left; reflexivity).
    destruct (Hall c Hin) as (r' & Hc' & Hlt).
    rewrite Hc in Hc'. inversion Hc'; subst r'.
    cbn [retained matchSimilarity].
    unfold ge. change (SFleb threshold (similarity r))
      with (le threshold (similarity r)).
    rewrite (lt_not_le _ _ Hlt). reflexivity.
Qed.

(** C7: a candidate that [findBestMatch] returns is the first of the
    candidates of greatest similarity: every candidate before it is
    strictly less similar to the probe, every candidate after it at most
    as similar (a similarity that is NaN is never retained and compares
    with nothing). *)
Theorem findBestMatch_first_of_greatest (threshold : number)
    (probe : option (list number)) (cands : list StoredEmbedding)
    (m : BestMatch)
    (Hfound : findBestMatch threshold probe cands = Ok (Some m)) :
  exists l1 l2,
    cands = (l1 ++ stored m :: l2)%list /\
    (forall c, In c l1 ->
       exists r, compareFaces threshold probe (embedding c) = Ok r /\
                 (lt (similarity r) (matchSimilarity m) = true \/
                  isNaN (similarity r) = true)) /\
    (forall c, In c l2 ->
       exists r, compareFaces threshold probe (embedding c) = Ok r /\
                 (le (similarity r) (matchSimilarity m) = true \/
                  isNaN (similarity r) = true)).
Proof.
  apply findBestMatch_Some_inv in Hfound. destruct Hfound as [Hscan _].
  apply scan_from_zero in Hscan.
  destruct Hscan as (l1 & c & l2 & r & -> & Hc & -> & Hpos & H1 & H2).
  cbn [retained stored matchSimilarity].
  destruct (lt_not_nan _ _ Hpos) as [_ Hr].
  exists l1, l2. repeat split.
  - intros c' Hin. destruct (H1 c' Hin) as (r' & Hc' & Hge).
    exists r'. split; [ assumption | ].
    destruct (isNaN (similarity r')) eqn:Hnan; [ right; reflexivity | left ].
    destruct (lt_total _ _ Hnan Hr) as [Hlt | Hle]; [ assumption | ].
    unfold ge in Hge. unfold le in Hle. congruence.
  - intros c' Hin. destruct (H2 c' Hin) as (r' & Hc' & Hgt).
    exists r'. split; [ assumption | ].
    destruct (isNaN (similarity r')) eqn:Hnan; [ right; reflexivity | left ].
    destruct (lt_total _ _ Hr Hnan) as [Hlt | Hle]; [ | assumption ].
    unfold gt in Hgt. unfold lt in Hlt. congruence.
Qed.

(** C10: when the embedding of one candidate is missing, or its length
    differs from the probe's, the whole call throws, wherever the candidate
    stands in the list and whatever the other candidates are. *)
Theorem findBestMatch_throws_on_malformed (threshold : number)
    (probe : list number) (cands : list StoredEmbedding)
    (c : StoredEmbedding)
    (Hin : In c cands)
    (Hbad : embedding c = None \/
            exists e, embedding c = Some e /\
                      List.length e <> List.length probe) :
  exists message,
    findBestMatch threshold (Some probe) cands =
    Throw ("Best match search failed: Face comparison failed: " ++ message).
Proof.
  assert (Hc : exists message,
             compareFaces threshold (Some probe) (embedding c) =
             Throw ("Face comparison failed: " ++ message)).
  { destruct Hbad as [-> | (e & -> & Hne)].
    - eexists. reflexivity.
    - rewrite compareFaces_present.
      destruct (Nat.eqb (List.length probe) (List.length e)) eqn:Hlen.
      + apply Nat.eqb_eq in Hlen. congruence.
      + eexists. reflexivity. }
  clear Hbad.
  assert (Hscan : forall best bs, exists message,
             scan threshold (Some probe) cands best bs =
             Throw ("Face comparison failed: " ++ message)).
  { induction cands as [| d rest IH]; intros best bs; [ destruct Hin | ].
    rewrite scan_cons.
    destruct (compareFaces threshold (Some probe) (embedding d)) as [r |] eqn:Hd.
    - destruct Hin as [-> | Hin].
      + destruct Hc as (message & Hc). rewrite Hc in Hd. discriminate.
      + destruct (gt (similarity r) bs); apply IH; assumption.
    - apply compareFaces_Throw_inv in Hd. destruct Hd as (message & ->).
      exists message. reflexivity. }
  destruct (Hscan None (ofZ 0)) as (message & Hm).
  exists message. rewrite findBestMatch_scan, Hm. reflexivity.
Qed.

(** The nearer of two candidates is returned when it reaches the
    threshold, and it is not below it. *)
Lemma findBestMatch_never_below_threshold_witness :
  exists m,
    findBestMatch defaultThreshold (Some Samples.probe)
      [Samples.enrolled 1 (ofZ 1); Samples.enrolled 2 (dec 1 10)] = Ok (Some m) /\
    _id (stored m) = 2 /\
    lt (matchSimilarity m) defaultThreshold = false.
Proof.
  eexists. split; [ vm_compute; reflexivity | split; [ reflexivity | ] ].
  destruct (proj1 (proj2 (findBestMatch_never_below_threshold defaultThreshold
              (Some Samples.probe)
              [Samples.enrolled 1 (ofZ 1); Samples.enrolled 2 (dec 1 10)]))
              _ ltac:(vm_compute; reflexivity))
    as (_ & r & _ & Hsim & _ & Hlt).
  rewrite Hsim. exact Hlt.
Defined.

(** Two candidates tie at the greatest similarity: the first is returned. *)
Lemma findBestMatch_first_of_greatest_witness :
  exists m,
    findBestMatch defaultThreshold (Some Samples.probe)
      [Samples.enrolled 1 (ofZ 0); Samples.enrolled 2 (dec 1 10);
       Samples.enrolled 3 (dec 1 10)] = Ok (Some m) /\
    _id (stored m) = 2 /\
    exists l1 l2,
      [Samples.enrolled 1 (ofZ 0); Samples.enrolled 2 (dec 1 10);
       Samples.enrolled 3 (dec 1 10)] = (l1 ++ stored m :: l2)%list.
Proof.
  eexists. split; [ vm_compute; reflexivity | split; [ reflexivity | ] ].
  destruct (findBestMatch_first_of_greatest defaultThreshold
              (Some Samples.probe)
              [Samples.enrolled 1 (ofZ 0); Samples.enrolled 2 (dec 1 10);
               Samples.enrolled 3 (dec 1 10)]
              _ ltac:(vm_compute; reflexivity))
    as (l1 & l2 & Hsplit & _).
  exists l1, l2. exact Hsplit.
Defined.

(** A matching candidate followed by one of another dimension: the call
    throws. *)
Lemma findBestMatch_throws_on_malformed_witness :
  exists message,
    findBestMatch defaultThreshold (Some Samples.probe)
      [Samples.enrolled 1 (dec 4 10); Samples.enrolled2 2 (ofZ 0) (ofZ 0)] =
    Throw ("Best match search failed: Face comparison failed: " ++ message).
Proof.
  apply (findBestMatch_throws_on_malformed defaultThreshold Samples.probe
           [Samples.enrolled 1 (dec 4 10); Samples.enrolled2 2 (ofZ 0) (ofZ 0)]
           (Samples.enrolled2 2 (ofZ 0) (ofZ 0))).
  - right. left. reflexivity.
  - right. exists [ofZ 0; ofZ 0]. split; [ reflexivity | ].
    simpl. discriminate.
Defined.

(** ** The brightness check *)

(** C9, the inputs on which the claim fails: an image whose average
    brightness is exactly 50, and one at exactly 200, are both reported
    as not good. *)
Lemma checkBrightness_endpoints_not_good :
  value (checkBrightness (Ok (Samples.uniformImage 50))) = ofZ 50 /\
  isGood (checkBrightness (Ok (Samples.uniformImage 50))) = false /\
  value (checkBrightness (Ok (Samples.uniformImage 200))) = ofZ 200 /\
  isGood (checkBrightness (Ok (Samples.uniformImage 200))) = false.
Proof. vm_compute. repeat split; reflexivity. Qed.

End FaceRecognitionFacts.

(** ** The payment store *)

Module StoreFacts.

(** Replacing, by [_id], a document that a filter finds first with a
    version of it that still passes the filter: the filter then finds the
    new version. *)
Lemma find_replaced (f : Payment.t -> bool) (l : list Payment.t)
    (p p' : Payment.t) :
  find f l = Some p ->
  f p' = true ->
  Payment._id p' = Payment._id p ->
  find f (map (fun q => if Payment._id q =? Payment._id p' then p' else q) l)
  = Some p'.
Proof.
  intros Hfind Hf Hid. induction l as [| q rest IH]; [ discriminate | ].
  simpl in *. destruct (f q) eqn:Hq.
  - inversion Hfind; subst q. rewrite Hid, Z.eqb_refl, Hf. reflexivity.
  - destruct (Payment._id q =? Payment._id p').
    + rewrite Hf. reflexivity.
    + rewrite Hq. auto.
Qed.

Lemma find_Some_In {A : Type} (f : A -> bool) (l : list A) (a : A) :
  find f l = Some a -> In a l /\ f a = true.
Proof. apply find_some. Qed.


Lemma replaced_length (l : list Payment.t) (p' : Payment.t) :
  List.length (map (fun q => if Payment._id q =? Payment._id p' then p' else q) l)
  = List.length l.
Proof. apply length_map. Qed.

End StoreFacts.

(** ** The payment state machine *)

Module PaymentFacts.
Import Stripe PaymentService Requests StoreFacts.

(** Saving a payment of a valid status replaces the document of its id. *)
Lemma save_valid (p' : Payment.t) (st : Store) :
  Payment.validStatus (Payment.status p') = true ->
  Payments.save p' st =
  (Ok tt,
   {| users := users st;
      payments := map (fun q => if Payment._id q =? Payment._id p' then p' else q)
                      (payments st) |}).
Proof. intros Hvalid. unfold Payments.save. rewrite Hvalid. reflexivity. Qed.

(** Saving a payment of any other status throws and writes nothing. *)
Lemma save_invalid (p' : Payment.t) (st : Store) :
  Payment.validStatus (Payment.status p') = false ->
  Payments.save p' st =
  (Throw (Payment.validationError (Payment.status p')), st).
Proof. intros Hvalid. unfold Payments.save. rewrite Hvalid. reflexivity. Qed.

Lemma lookup_saved (key : option string) (st : Store) (p p' : Payment.t) :
  lookup key st = Some p ->
  Payment._id p' = Payment._id p ->
  Payment.stripePaymentIntentId p' = Payment.stripePaymentIntentId p ->
  Payment.validStatus (Payment.status p') = true ->
  lookup key (saved p' st) = Some p'.
Proof.
  intros Hfind Hid Hintent Hvalid.
  unfold saved. rewrite (save_valid p' st Hvalid).
  unfold lookup, Payments.findOne in *. simpl in *.
  destruct key as [intentId |]; [ | discriminate ].
  apply find_replaced with (p := p); auto.
  apply find_some in Hfind. rewrite Hintent. apply Hfind.
Qed.

(** A webhook handler that finds the payment of the event saves the
    changed payment; one that finds none leaves the store as it is.
    Neither throws. *)
Lemma handlePaymentSucceeded_run (now : Date) (obj : EventObject.t)
    (st : Store) :
  handlePaymentSucceeded now obj st =
  (Ok tt,
   match lookup (EventObject.id obj) st with
   | Some p =>
       saved (Payment.with_processedAt now (Payment.with_status "succeeded" p)) st
   | None => st
   end).
Proof.
  unfold handlePaymentSucceeded, bind, lookup, saved, Payments.findOne. simpl.
  destruct (match EventObject.id obj with Some _ => _ | None => _ end);
    reflexivity.
Qed.

Lemma handlePaymentFailed_run (obj : EventObject.t) (st : Store) :
  handlePaymentFailed obj st =
  (Ok tt,
   match lookup (EventObject.id obj) st with
   | Some p =>
       saved (Payment.with_failureCode
                (errorCode (EventObject.last_payment_error obj) "unknown")
                (Payment.with_failureReason
                   (errorMessage (EventObject.last_payment_error obj)
                                 "Payment failed")
                   (Payment.with_status "failed" p))) st
   | None => st
   end).
Proof.
  unfold handlePaymentFailed, bind, lookup, saved, Payments.findOne. simpl.
  destruct (match EventObject.id obj with Some _ => _ | None => _ end);
    reflexivity.
Qed.

Lemma handleChargeRefunded_run (now : Date) (charge : EventObject.t)
    (st : Store) :
  handleChargeRefunded now charge st =
  (Ok tt,
   match lookup (EventObject.payment_intent charge) st with
   | Some p =>
       saved (Payment.with_refundedAt now (Payment.with_status "refunded" p)) st
   | None => st
   end).
Proof.
  unfold handleChargeRefunded, bind, lookup, saved, Payments.findOne. simpl.
  destruct (match EventObject.payment_intent charge with
            | Some _ => _ | None => _ end); reflexivity.
Qed.

(** C1, as the code has it: a payment-succeeded event for the intent of a
    payment never throws and leaves that payment in [succeeded], with
    [processedAt] set to the time of this application; applied to a
    payment that already succeeded, it changes nothing but stamps
    [processedAt] again. *)
Theorem handlePaymentSucceeded_stamps_again (now : Date)
    (obj : EventObject.t) (st : Store) (p : Payment.t)
    (Hfound : lookup (EventObject.id obj) st = Some p) :
  exists st' p',
    handlePaymentSucceeded now obj st = (Ok tt, st') /\
    lookup (EventObject.id obj) st' = Some p' /\
    Payment.status p' = "succeeded" /\
    Payment.processedAt p' = Some now /\
    (Payment.status p = "succeeded" -> p' = Payment.with_processedAt now p).
Proof.
  rewrite handlePaymentSucceeded_run, Hfound.
  eexists. eexists. split; [ reflexivity | ].
  split; [ apply lookup_saved with (p := p); auto | ].
  repeat split.
  intros Hs. destruct p; simpl in *. subst. reflexivity.
Qed.

(** C1, the input on which the claim fails: the same event applied at
    time 2000 and again at time 3000; the payment is in [succeeded] after
    both, with [processedAt] 2000 after the first and 3000 after the
    second. *)
Lemma handlePaymentSucceeded_replay_moves_processedAt :
  let obj := Event.data_object (Samples.event "payment_intent.succeeded") in
  let first := handlePaymentSucceeded 2000 obj Samples.pendingStore in
  let second := handlePaymentSucceeded 3000 obj (snd first) in
  map Payment.status (payments (snd first)) = ["succeeded"] /\
  map Payment.processedAt (payments (snd first)) = [Some 2000] /\
  fst second = Ok tt /\
  map Payment.status (payments (snd second)) = ["succeeded"] /\
  map Payment.processedAt (payments (snd second)) = [Some 3000].
Proof. vm_compute. repeat split; reflexivity. Qed.

(** The replay on the sample store. *)
Lemma handlePaymentSucceeded_stamps_again_witness :
  exists st' p',
    handlePaymentSucceeded 3000
      (Event.data_object (Samples.event "payment_intent.succeeded"))
      Samples.pendingStore = (Ok tt, st') /\
    lookup (Some "pi_1") st' = Some p' /\
    Payment.status p' = "succeeded" /\
    Payment.processedAt p' = Some 3000.
Proof.
  destruct (handlePaymentSucceeded_stamps_again 3000
              (Event.data_object (Samples.event "payment_intent.succeeded"))
              Samples.pendingStore _ ltac:(vm_compute; reflexivity))
    as (st' & p' & Hrun & Hlook & Hstatus & Hat & _).
  exists st', p'. auto.
Defined.


Lemma refundPayment_run (stripe : Gateway) (now : Date) (paymentId : ObjectId)
    (reason : option string) (st : Store) :
  refundPayment stripe now paymentId reason st =
  match lookupId paymentId st with
  | None => (Throw "Refund failed: Payment not found", st)
  | Some p =>
      if String.eqb (Payment.status p) "succeeded" then
        match refunds_create stripe
                {| rp_payment_intent := Payment.stripePaymentIntentId p;
                   rp_reason := "requested_by_customer";
                   rp_metadata :=
                     [("reason",
                       Text (match reason with
                             | Some r => r
                             | None => "User requested refund"
                             end));
                      ("refundedBy", Text "facepay");
                      ("originalPaymentId", IdText (Payment._id p))] |}
        with
        | Ok refund =>
            (Ok (refundedPayment now reason p, refund),
             saved (refundedPayment now reason p) st)
        | Throw message => (Throw ("Refund failed: " ++ message), st)
        end
      else (Throw "Refund failed: Only successful payments can be refunded", st)
  end.
Proof.
  unfold refundPayment, tryRethrow, bind, lookupId, Payments.findById, saved,
    call, throw, ret.
  simpl. destruct (find _ (payments st)) as [p |]; [ | reflexivity ].
  destruct (String.eqb (Payment.status p) "succeeded"); simpl;
    [ | reflexivity ].
  destruct (refunds_create stripe _); reflexivity.
Qed.

Lemma confirmedPayment_status (now : Date) (paymentIntent : PaymentIntent.t)
    (p : Payment.t) :
  Payment.status (confirmedPayment now paymentIntent p) =
  PaymentIntent.status paymentIntent.
Proof.
  unfold confirmedPayment.
  destruct (String.eqb (PaymentIntent.status paymentIntent) "succeeded");
    [ reflexivity | ].
  destruct (String.eqb (PaymentIntent.status paymentIntent) "failed");
    reflexivity.
Qed.

(** [confirmPayment] saves the payment with the status of the gateway's
    answer; the save throws, and writes nothing, when that status is none
    of the four. *)
Lemma confirmPayment_run (stripe : Gateway) (now : Date)
    (paymentIntentId : string) (paymentMethodId : option string)
    (st : Store) :
  confirmPayment stripe now paymentIntentId paymentMethodId st =
  match lookup (Some paymentIntentId) st with
  | None => (Throw "Payment confirmation failed: Payment not found", st)
  | Some p =>
      match paymentIntents_confirm stripe paymentIntentId paymentMethodId with
      | Ok paymentIntent =>
          if Payment.validStatus (PaymentIntent.status paymentIntent) then
            (Ok (confirmedPayment now paymentIntent p, paymentIntent),
             saved (confirmedPayment now paymentIntent p) st)
          else
            (Throw ("Payment confirmation failed: " ++
                    Payment.validationError
                      (PaymentIntent.status paymentIntent)), st)
      | Throw message =>
          (Throw ("Payment confirmation failed: " ++ message), st)
      end
  end.
Proof.
  unfold confirmPayment, tryRethrow, bind at 1, lookup, Payments.findOne.
  simpl. destruct (find _ (payments st)) as [p |]; [ | reflexivity ].
  unfold bind at 1, call.
  destruct (paymentIntents_confirm stripe _ _) as [paymentIntent |];
    [ | reflexivity ].
  fold (confirmedPayment now paymentIntent p).
  unfold bind, ret, saved.
  destruct (Payment.validStatus (PaymentIntent.status paymentIntent)) eqn:Hvalid.
  - rewrite save_valid
      by (rewrite confirmedPayment_status; exact Hvalid).
    reflexivity.
  - rewrite save_invalid
      by (rewrite confirmedPayment_status; exact Hvalid).
    rewrite confirmedPayment_status. reflexivity.
Qed.

(** C2, as the code has it: a refund request for a payment that is not
    in [succeeded] throws the invalid-state error and leaves the store as
    it was; the charge-refunded event puts the payment of its intent in
    [refunded], with [refundedAt] stamped, whatever its status was. *)
Theorem refund_request_needs_succeeded :
  (forall (stripe : Gateway) (now : Date) (paymentId : ObjectId)
          (reason : option string) (st : Store) (p : Payment.t),
      lookupId paymentId st = Some p ->
      Payment.status p <> "succeeded" ->
      refundPayment stripe now paymentId reason st =
      (Throw "Refund failed: Only successful payments can be refunded", st)) /\
  (forall (now : Date) (charge : EventObject.t) (st : Store) (p : Payment.t),
      lookup (EventObject.payment_intent charge) st = Some p ->
      exists st',
        handleChargeRefunded now charge st = (Ok tt, st') /\
        lookup (EventObject.payment_intent charge) st' =
        Some (Payment.with_refundedAt now (Payment.with_status "refunded" p))).
Proof.
  split.
  - intros stripe now paymentId reason st p Hfound Hstatus.
    rewrite refundPayment_run, Hfound.
    apply String.eqb_neq in Hstatus. rewrite Hstatus. reflexivity.
  - intros now charge st p Hfound.
    rewrite handleChargeRefunded_run, Hfound.
    eexists. split; [ reflexivity | ].
    apply lookup_saved with (p := p); auto.
Qed.

(** C2, the input on which the claim fails: the charge-refunded event for
    the intent of a pending payment puts it in [refunded]. *)
Lemma handleChargeRefunded_refunds_pending :
  map Payment.status (payments Samples.pendingStore) = ["pending"] /\
  handleWebhook 2000 (Samples.event "charge.refunded") Samples.pendingStore =
  handleChargeRefunded 2000
    (Event.data_object (Samples.event "charge.refunded")) Samples.pendingStore /\
  fst (handleChargeRefunded 2000
         (Event.data_object (Samples.event "charge.refunded"))
         Samples.pendingStore) = Ok tt /\
  map Payment.status
    (payments (snd (handleChargeRefunded 2000
                      (Event.data_object (Samples.event "charge.refunded"))
                      Samples.pendingStore))) = ["refunded"].
Proof. vm_compute. repeat split; reflexivity. Qed.

(** A refund request for the pending payment of the sample store. *)
Lemma refund_request_needs_succeeded_witness :
  refundPayment (Samples.gateway "succeeded") 2000 7 None Samples.pendingStore =
  (Throw "Refund failed: Only successful payments can be refunded",
   Samples.pendingStore).
Proof.
  eapply (proj1 refund_request_needs_succeeded).
  - vm_compute. reflexivity.
  - vm_compute. discriminate.
Defined.

(** ** Creating a payment *)

(** [ensureCustomer] never touches the payments. *)
Lemma ensureCustomer_payments (stripe : Gateway) (user : User.t) (st : Store) :
  payments (snd (ensureCustomer stripe user st)) = payments st.
Proof.
  unfold ensureCustomer, bind, call, ret, Users.save.
  destruct (User.stripeCustomerId user) as [[| c rest] |]; simpl;
    try reflexivity;
    destruct (customers_create stripe _); reflexivity.
Qed.

(** A call of [processFacePayment] that returns has found an active
    user, got its intent from the gateway for the rounded amount and the
    lower-case currency, and has inserted one payment, the one it
    returns, after the payments there were. *)
Lemma processFacePayment_Ok_inv (stripe : Gateway) (now : Date)
    (newId userId : ObjectId) (amount : number) (currency description : string)
    (faceData : FaceData.t) (paymentMethod : option string)
    (st st' : Store) (r : FacePaymentResult) :
  processFacePayment stripe now newId userId amount currency description
    faceData paymentMethod st = (Ok r, st') ->
  (exists user,
     find (fun u => User._id u =? userId) (users st) = Some user /\
     User.isActive user = true /\
     summary_id (fp_user r) = User._id user /\
     Payment.userId (fp_payment r) = User._id user) /\
  (exists params,
     paymentIntents_create stripe params = Ok (fp_paymentIntent r) /\
     ip_amount params = Math_round (mul amount (ofZ 100)) /\
     ip_currency params = toLowerCase currency) /\
  payments st' = (payments st ++ [fp_payment r])%list /\
  Payment._id (fp_payment r) = newId /\
  Payment.amount (fp_payment r) = Math_round (mul amount (ofZ 100)) /\
  Payment.currency (fp_payment r) = toLowerCase currency /\
  Payment.status (fp_payment r) = "pending" /\
  Payment.stripePaymentIntentId (fp_payment r) =
    PaymentIntent.id (fp_paymentIntent r) /\
  Payment.createdAt (fp_payment r) = now /\
  Payment.processedAt (fp_payment r) = None /\
  Payment.refundedAt (fp_payment r) = None.
Proof.
  unfold processFacePayment, tryRethrow, bind at 1, Users.findById. simpl.
  destruct (find _ (users st)) as [user |] eqn:Huser;
    [ | unfold throw; simpl; discriminate ].
  destruct (User.isActive user) eqn:Hactive;
    [ | unfold throw; simpl; discriminate ].
  simpl. unfold bind at 1.
  pose proof (ensureCustomer_payments stripe user st) as Hpay.
  destruct (ensureCustomer stripe user st) as [[customerId | message] st1];
    [ | simpl; discriminate ].
  simpl in Hpay. unfold bind at 1, call, createPaymentIntent.
  match goal with
  | |- context [paymentIntents_create stripe ?ps] =>
      destruct (paymentIntents_create stripe ps) as [paymentIntent |] eqn:Hintent
  end; [ | simpl; discriminate ].
  simpl. unfold bind, Payments.insert, ret.
  destruct (existsb _ (payments st1)); [ simpl; discriminate | ].
  simpl. intros H. inversion H; subst; clear H. simpl.
  repeat split; try reflexivity.
  - exists user. auto.
  - eexists. split; [ exact Hintent | split; reflexivity ].
  - rewrite Hpay. reflexivity.
Qed.

(** C6: a call for the amount 25.50 in ["usd"] that returns has created
    exactly one payment: the payments of the store are those there were
    followed by the one returned, which holds 2550 minor units in
    ["usd"], is [pending], and carries the id of the intent that the
    gateway returned for 2550 in ["usd"]. *)
Theorem processFacePayment_creates_one_pending (stripe : Gateway)
    (now : Date) (newId userId : ObjectId) (description : string)
    (faceData : FaceData.t) (paymentMethod : option string)
    (st st' : Store) (r : FacePaymentResult)
    (Hreturned :
       processFacePayment stripe now newId userId (dec 2550 100) "usd"
         description faceData paymentMethod st = (Ok r, st')) :
  payments st' = (payments st ++ [fp_payment r])%list /\
  Payment.amount (fp_payment r) = ofZ 2550 /\
  Payment.currency (fp_payment r) = "usd" /\
  Payment.status (fp_payment r) = "pending" /\
  Payment.stripePaymentIntentId (fp_payment r) =
    PaymentIntent.id (fp_paymentIntent r) /\
  exists params,
    paymentIntents_create stripe params = Ok (fp_paymentIntent r) /\
    ip_amount params = ofZ 2550 /\ ip_currency params = "usd".
Proof.
  apply processFacePayment_Ok_inv in Hreturned.
  destruct Hreturned
    as (_ & (params & Hintent & Hamount & Hcurrency) & Hpayments & _ &
        Hpaid & Hcur & Hstatus & Hbound & _).
  repeat split; auto.
  exists params. auto.
Qed.

(** The payment of the sample: 25.50 usd for Alice. *)
Lemma processFacePayment_creates_one_pending_witness :
  exists r st',
    processFacePayment (Samples.gateway "succeeded") 1000 7 1 (dec 2550 100)
      "usd" "Coffee purchase" Samples.faceData None Samples.emptyStore
    = (Ok r, st') /\
    payments st' = [fp_payment r] /\
    Payment.amount (fp_payment r) = ofZ 2550 /\
    Payment.status (fp_payment r) = "pending" /\
    Payment.stripePaymentIntentId (fp_payment r) = "pi_1".
Proof.
  eexists. eexists. split; [ vm_compute; reflexivity | ].
  destruct (processFacePayment_creates_one_pending (Samples.gateway "succeeded")
              1000 7 1 "Coffee purchase" Samples.faceData None
              Samples.emptyStore _ _ ltac:(vm_compute; reflexivity))
    as (Hpayments & Hamount & _ & Hstatus & _).
  split; [ exact Hpayments | ].
  split; [ exact Hamount | ].
  split; [ exact Hstatus | reflexivity ].
Defined.








End PaymentFacts.

(** ** More on the matcher *)

Module MatcherFacts.
Import FaceRecognition NumFacts ArithFacts FaceRecognitionFacts.

Lemma sumOfSquares_comm (e1 e2 : list number) :
  forall sum, sumOfSquares e1 e2 sum = sumOfSquares e2 e1 sum.
Proof.
  revert e2. induction e1 as [| x rest1 IH]; intros [| y rest2] sum;
    try reflexivity.
  simpl. rewrite pow2_sub_comm. apply IH.
Qed.

(** Comparison is symmetric: the two orders of the arguments give the
    same distance, similarity and verdict, or the same error. *)
Theorem compareFaces_symmetric (threshold : number)
    (embedding1 embedding2 : option (list number)) :
  compareFaces threshold embedding1 embedding2 =
  compareFaces threshold embedding2 embedding1.
Proof.
  destruct embedding1 as [e1 |], embedding2 as [e2 |]; try reflexivity.
  rewrite !compareFaces_present, (Nat.eqb_sym (List.length e2)).
  destruct (Nat.eqb (List.length e1) (List.length e2)); [ | reflexivity ].
  unfold compared. rewrite (sumOfSquares_comm e1 e2). reflexivity.
Qed.

Lemma sumOfSquares_diag (e : list number) :
  forallb isFinite e = true ->
  sumOfSquares e e (ofZ 0) = ofZ 0.
Proof.
  induction e as [| x rest IH]; [ reflexivity | ].
  simpl. intros H. apply andb_true_iff in H. destruct H as [Hx Hrest].
  rewrite (sub_diag x Hx). exact (IH Hrest).
Qed.

(** A vector of finite numbers compared with itself is at distance 0 and
    similarity 1; it matches exactly when the threshold is at most 1. *)
Theorem compareFaces_self (threshold : number) (e : list number)
    (Hfinite : forallb isFinite e = true) :
  compareFaces threshold (Some e) (Some e) =
  Ok {| distance := ofZ 0; similarity := ofZ 1;
        isMatch := le threshold (ofZ 1) |}.
Proof.
  rewrite compareFaces_present, Nat.eqb_refl.
  unfold compared. rewrite (sumOfSquares_diag e Hfinite). reflexivity.
Qed.

Lemma compareFaces_self_witness :
  compareFaces defaultThreshold (Some [dec 4 10; dec (-7) 10])
    (Some [dec 4 10; dec (-7) 10]) =
  Ok {| distance := ofZ 0; similarity := ofZ 1; isMatch := true |}.
Proof.
  exact (compareFaces_self defaultThreshold [dec 4 10; dec (-7) 10] eq_refl).
Defined.

(** The distance and the similarity of a comparison are never below
    zero. *)
Theorem comparison_not_negative (threshold : number)
    (embedding1 embedding2 : option (list number)) (r : Comparison)
    (Hcompared : compareFaces threshold embedding1 embedding2 = Ok r) :
  lt (distance r) (ofZ 0) = false /\ lt (similarity r) (ofZ 0) = false.
Proof.
  apply compareFaces_Ok_inv in Hcompared.
  destruct Hcompared as (e1 & e2 & _ & _ & _ & ->).
  split; [ apply sqrt_not_negative | apply max_zero_not_negative ].
Qed.

Lemma comparison_not_negative_witness :
  exists r,
    compareFaces defaultThreshold (Some [ofZ 3]) (Some [ofZ 0]) = Ok r /\
    similarity r = ofZ 0 /\ lt (similarity r) (ofZ 0) = false.
Proof.
  eexists. split; [ vm_compute; reflexivity | split; [ reflexivity | ] ].
  exact (proj2 (comparison_not_negative defaultThreshold (Some [ofZ 3])
                  (Some [ofZ 0]) _ ltac:(vm_compute; reflexivity))).
Defined.

(** When every comparison succeeds and some candidate is at a
    similarity above zero that reaches the threshold, a candidate is
    returned, and it is at least as similar as that one. *)
Theorem findBestMatch_finds (threshold : number)
    (probe : option (list number)) (cands : list StoredEmbedding)
    (c : StoredEmbedding) (r : Comparison)
    (Hall : forall c', In c' cands ->
              isOk (compareFaces threshold probe (embedding c')) = true)
    (Hin : In c cands)
    (Hc : compareFaces threshold probe (embedding c) = Ok r)
    (Hpositive : gt (similarity r) (ofZ 0) = true)
    (Hreaches : ge (similarity r) threshold = true) :
  exists m,
    findBestMatch threshold probe cands = Ok (Some m) /\
    le (similarity r) (matchSimilarity m) = true.
Proof.
  pose proof (scan_returns threshold probe cands Hall None (ofZ 0)) as Hret.
  destruct (scan threshold probe cands None (ofZ 0)) as [res |] eqn:Hscan;
    [ clear Hret | discriminate ].
  pose proof (scan_result _ _ _ _ _ _ Hscan) as Hres.
  destruct Hres as [[-> Hnone] | (l1 & c0 & l2 & r0 & -> & Hc0 & -> & Hr0 & H1 & H2)].
  - destruct (Hnone c Hin) as (r' & Hc' & Hgt).
    rewrite Hc in Hc'. inversion Hc'; subst. congruence.
  - assert (Hle : le (similarity r) (similarity r0) = true).
    { destruct (lt_not_nan _ _ Hr0) as [_ Hnan0].
      destruct (lt_not_nan _ _ Hpositive) as [_ Hnan].
      apply in_app_or in Hin. destruct Hin as [Hin | [<- | Hin]].
      - destruct (H1 c Hin) as (r' & Hc' & Hge).
        rewrite Hc in Hc'. inversion Hc'; subst r'.
        destruct (lt_total _ _ Hnan Hnan0) as [Hlt | Hle'].
        + apply lt_le. exact Hlt.
        + unfold ge in Hge. unfold le in Hle'. congruence.
      - rewrite Hc in Hc0. inversion Hc0; subst r0.
        destruct (lt_total _ _ Hnan Hnan) as [Hlt | Hle']; [ | exact Hle' ].
        apply lt_le. exact Hlt.
      - destruct (H2 c Hin) as (r' & Hc' & Hgt).
        rewrite Hc in Hc'. inversion Hc'; subst r'.
        destruct (lt_total _ _ Hnan0 Hnan) as [Hlt | Hle']; [ | exact Hle' ].
        unfold gt in Hgt. unfold lt in Hlt. congruence. }
    exists (retained c0 r0). split; [ | exact Hle ].
    rewrite findBestMatch_scan, Hscan. cbn [retained matchSimilarity].
    unfold ge in *.
    pose proof (le_trans _ _ _ Hreaches Hle) as Hth. unfold le in Hth.
    rewrite Hth. reflexivity.
Qed.

Lemma findBestMatch_finds_witness :
  exists m,
    findBestMatch defaultThreshold (Some Samples.probe)
      [Samples.enrolled 1 (ofZ 1); Samples.enrolled 2 (ofZ 0);
       Samples.enrolled 3 (dec 1 10)] = Ok (Some m) /\
    le (dec 6 10) (matchSimilarity m) = true.
Proof.
  refine (findBestMatch_finds defaultThreshold (Some Samples.probe)
            [Samples.enrolled 1 (ofZ 1); Samples.enrolled 2 (ofZ 0);
             Samples.enrolled 3 (dec 1 10)]
            (Samples.enrolled 2 (ofZ 0))
            (compared defaultThreshold Samples.probe [ofZ 0]) _ _ _ _ _).
  - intros c' [<- | [<- | [<- | []]]]; vm_compute; reflexivity.
  - right. left. reflexivity.
  - vm_compute. reflexivity.
  - vm_compute. reflexivity.
  - vm_compute. reflexivity.
Defined.

(** The scan starts from the similarity 0 and retains only what is above
    it: when no candidate is at a similarity above zero the result is
    [null], whatever the threshold, a threshold of zero or below
    included. *)
Theorem findBestMatch_none_when_nothing_positive (threshold : number)
    (probe : option (list number)) (cands : list StoredEmbedding)
    (Hall : forall c, In c cands ->
              exists r, compareFaces threshold probe (embedding c) = Ok r /\
                        gt (similarity r) (ofZ 0) = false) :
  findBestMatch threshold probe cands = Ok None.
Proof.
  rewrite findBestMatch_scan.
  assert (Hret : isOk (scan threshold probe cands None (ofZ 0)) = true).
  { apply scan_returns. intros c Hc.
    destruct (Hall c Hc) as (r & -> & _). reflexivity. }
  destruct (scan threshold probe cands None (ofZ 0)) as [[best |] |] eqn:Hscan;
    [ | reflexivity | discriminate ].
  apply scan_from_zero in Hscan.
  destruct Hscan as (l1 & c & l2 & r & -> & Hc & _ & Hpos & _).
  assert (Hin : In c (l1 ++ c :: l2)%list)
    by (apply in_or_app; right; left; reflexivity).
  destruct (Hall c Hin) as (r' & Hc' & Hnot).
  rewrite Hc in Hc'. inversion Hc'; subst. congruence.
Qed.

(** Under a threshold of -1 a candidate at distance 3, of similarity 0,
    is not returned. *)
Lemma findBestMatch_none_when_nothing_positive_witness :
  findBestMatch (configuredThreshold (ofZ (-1))) (Some Samples.probe)
    [Samples.enrolled 1 (ofZ 3); Samples.enrolled 2 (ofZ (-3))] = Ok None.
Proof.
  apply findBestMatch_none_when_nothing_positive.
  intros c [<- | [<- | []]]; eexists; split;
    try (vm_compute; reflexivity).
Defined.

End MatcherFacts.

(** ** The quality gate *)

Module QualityFacts.
Import FaceRecognition NumFacts ArithFacts.

Lemma add_nan_r (a : number) : add a NaN = NaN.
Proof. destruct a as [s | s | | s m e]; reflexivity. Qed.

Lemma sub_nan_r (a : number) : sub a NaN = NaN.
Proof. destruct a as [s | s | | s m e]; reflexivity. Qed.

Lemma mod3_step (k : nat) : (S (S (S k)) mod 3 = k mod 3)%nat.
Proof.
  change (S (S (S k))) with (3 + k)%nat.
  rewrite Nat.add_comm. exact (Nat.Div0.mod_add k 1 3).
Qed.

(** The brightness loop reads three bytes at a time: on a buffer whose
    length is no multiple of 3 the last read goes past the end and the
    sum is NaN. *)
Lemma sumBrightness_ragged (n : nat) :
  forall (data : list Z) (total : number),
    (List.length data <= n)%nat ->
    (List.length data mod 3 <> 0)%nat ->
    sumBrightness data total = NaN.
Proof.
  induction n as [| n IH]; intros data total Hlen Hmod.
  - destruct data; [ elim Hmod; reflexivity | simpl in Hlen; lia ].
  - destruct data as [| r [| g [| b rest]]]; try reflexivity.
    + elim Hmod. reflexivity.
    + cbn [sumBrightness]. apply IH.
      * simpl in Hlen. lia.
      * cbn [List.length] in Hmod. rewrite mod3_step in Hmod. exact Hmod.
Qed.

Lemma checkBrightness_ragged (data : list Z) :
  (List.length data mod 3 <> 0)%nat ->
  checkBrightness (Ok data) =
  {| value := NaN; isGood := false; message := "Poor brightness" |}.
Proof.
  intros Hragged. unfold checkBrightness.
  rewrite (sumBrightness_ragged (List.length data) data (ofZ 0) (le_n _) Hragged).
  reflexivity.
Qed.

(** C9, as the code has it: [isGood] holds exactly when the average
    that the check computes, and reports as [value], is above 50 and
    below 200, both bounds excluded; a reported average of exactly 50 or
    exactly 200 is not good, and neither is an image that could not be
    read.  The reported average is computed three bytes at a time: on a
    raw buffer whose length is no multiple of 3 it is NaN and the image
    is not good, whatever its brightness. *)
Theorem checkBrightness_isGood_of_reported_average (raw : result (list Z)) :
  (isGood (checkBrightness raw) = true <->
   isOk raw = true /\
   gt (value (checkBrightness raw)) (ofZ 50) = true /\
   lt (value (checkBrightness raw)) (ofZ 200) = true) /\
  (value (checkBrightness raw) = ofZ 50 \/
   value (checkBrightness raw) = ofZ 200 ->
   isGood (checkBrightness raw) = false) /\
  (forall data,
     raw = Ok data -> (List.length data mod 3 <> 0)%nat ->
     value (checkBrightness raw) = NaN /\
     isGood (checkBrightness raw) = false).
Proof.
  split; [ | split ].
  - destruct raw as [data | message].
    + cbn [checkBrightness isGood value isOk].
      rewrite andb_true_iff. tauto.
    + cbn [checkBrightness isGood value isOk].
      split; [ discriminate | intros [H _]; discriminate ].
  - destruct raw as [data | message]; [ | reflexivity ].
    cbn [checkBrightness isGood value].
    intros [-> | ->]; vm_compute; reflexivity.
  - intros data -> Hragged.
    rewrite (checkBrightness_ragged data Hragged). split; reflexivity.
Qed.

(** A raw buffer whose length is no multiple of 3, such as one of four
    channels (40000 bytes for 100 x 100 pixels), has the average NaN and
    is never of good brightness. *)
Theorem checkBrightness_needs_three_channels (data : list Z)
    (Hragged : (List.length data mod 3 <> 0)%nat) :
  checkBrightness (Ok data) =
  {| value := NaN; isGood := false; message := "Poor brightness" |}.
Proof. exact (checkBrightness_ragged data Hragged). Qed.

Lemma checkBrightness_needs_three_channels_witness :
  checkBrightness (Ok (Samples.uniformImage4 120)) =
  {| value := NaN; isGood := false; message := "Poor brightness" |}.
Proof.
  apply checkBrightness_needs_three_channels.
  unfold Samples.uniformImage4. rewrite repeat_length.
  change (Z.to_nat 40000) with (3 * Z.to_nat 13333 + 1)%nat.
  rewrite Nat.add_comm, Nat.mul_comm, Nat.Div0.mod_add. discriminate.
Defined.

(** The last step of the blur loops reads the byte 29994: on a shorter
    buffer it adds NaN to the score. *)
Lemma blurStep_short (data : list Z) (score : number) :
  Z.of_nat (List.length data) < 29995 ->
  blurStep data 98 98 score = NaN.
Proof.
  intros Hlen. unfold blurStep.
  assert (Hdown : byteAt data ((98 * 100 + 98) * 3 + 100 * 3) = NaN).
  { unfold byteAt.
    destruct (nth_error data ((98 * 100 + 98) * 3 + 100 * 3)) eqn:Hnth;
      [ | reflexivity ].
    assert (Hlt : ((98 * 100 + 98) * 3 + 100 * 3 < List.length data)%nat)
      by (apply nth_error_Some; congruence).
    change ((98 * 100 + 98) * 3 + 100 * 3)%nat with (Z.to_nat 29994) in Hlt.
    lia. }
  rewrite Hdown, sub_nan_r. cbn [Math_abs SFabs NaN].
  change S754_nan with NaN. rewrite !add_nan_r. reflexivity.
Qed.

Lemma seq_1_98 : seq 1 98 = (seq 1 97 ++ [98%nat])%list.
Proof. reflexivity. Qed.

Lemma blurScoreOf_short (data : list Z) :
  Z.of_nat (List.length data) < 29995 -> blurScoreOf data = NaN.
Proof.
  intros Hlen. unfold blurScoreOf.
  rewrite seq_1_98 at 1. rewrite fold_left_app. cbn [fold_left].
  rewrite seq_1_98. rewrite fold_left_app. cbn [fold_left].
  apply blurStep_short. exact Hlen.
Qed.

Lemma checkBlur_short (data : list Z) :
  Z.of_nat (List.length data) < 29995 ->
  checkBlur (Ok data) =
  {| blurValue := NaN; blurIsGood := false;
     blurMessage := "Image is too blurry" |}.
Proof.
  intros Hshort. unfold checkBlur.
  rewrite (blurScoreOf_short data Hshort). reflexivity.
Qed.

(** A buffer shorter than the 100 x 100 pixels of three channels that
    the loops read is never sharp. *)
Theorem checkBlur_needs_whole_image (data : list Z)
    (Hshort : Z.of_nat (List.length data) < 29995) :
  checkBlur (Ok data) =
  {| blurValue := NaN; blurIsGood := false;
     blurMessage := "Image is too blurry" |}.
Proof. exact (checkBlur_short data Hshort). Qed.

Lemma checkBlur_needs_whole_image_witness :
  checkBlur (Ok [10; 200; 30]) =
  {| blurValue := NaN; blurIsGood := false;
     blurMessage := "Image is too blurry" |}.
Proof.
  apply checkBlur_needs_whole_image. simpl. lia.
Defined.

Lemma byte_finite (v : Z) : 0 <= v <= 255 -> isFinite (ofZ v) = true.
Proof.
  intros Hv.
  assert (Hall : forallb (fun n => isFinite (ofZ (Z.of_nat n))) (seq 0 256) = true)
    by (vm_compute; reflexivity).
  rewrite forallb_forall in Hall.
  specialize (Hall (Z.to_nat v)).
  rewrite Z2Nat.id in Hall by lia. apply Hall.
  apply in_seq. lia.
Qed.

Lemma byteAt_repeat (v : Z) (n i : nat) :
  (i < n)%nat -> byteAt (repeat v n) i = ofZ v.
Proof.
  intros Hi. unfold byteAt. rewrite nth_error_repeat by exact Hi. reflexivity.
Qed.

Lemma fold_left_fixed {B : Type} (f : number -> B -> number) (l : list B)
    (s : number) :
  (forall b, In b l -> f s b = s) -> fold_left f l s = s.
Proof.
  induction l as [| b rest IH]; intros H; [ reflexivity | ].
  simpl. rewrite (H b (or_introl eq_refl)). apply IH.
  intros b' Hb'. apply H. right. exact Hb'.
Qed.

Lemma blurStep_uniform (v : Z) (n y x : nat) :
  0 <= v <= 255 -> 29995 <= Z.of_nat n ->
  In y (seq 1 98) -> In x (seq 1 98) ->
  blurStep (repeat v n) y x (ofZ 0) = ofZ 0.
Proof.
  intros Hv Hn Hy Hx. apply in_seq in Hy. apply in_seq in Hx.
  unfold blurStep.
  rewrite !byteAt_repeat by lia.
  rewrite (sub_diag (ofZ v) (byte_finite v Hv)). reflexivity.
Qed.

(** An image of one colour has the blur score 0 and is not sharp. *)
Theorem checkBlur_uniform_not_sharp (v : Z) (n : nat)
    (Hbyte : 0 <= v <= 255)
    (Hwhole : 29995 <= Z.of_nat n) :
  checkBlur (Ok (repeat v n)) =
  {| blurValue := ofZ 0; blurIsGood := false;
     blurMessage := "Image is too blurry" |}.
Proof.
  assert (Hscore : blurScoreOf (repeat v n) = ofZ 0).
  { unfold blurScoreOf. apply fold_left_fixed. intros y Hy.
    apply fold_left_fixed. intros x Hx.
    apply blurStep_uniform; assumption. }
  unfold checkBlur. rewrite Hscore. reflexivity.
Qed.

Lemma checkBlur_uniform_not_sharp_witness :
  checkBlur (Ok (Samples.uniformImage 120)) =
  {| blurValue := ofZ 0; blurIsGood := false;
     blurMessage := "Image is too blurry" |}.
Proof.
  apply checkBlur_uniform_not_sharp; [ lia | ].
  rewrite Z2Nat.id; lia.
Defined.

#[local] Opaque blurScoreOf sumBrightness.

Lemma validateFaceQuality_detected (detection : Detection)
    (raw : result (list Z)) :
  isAcceptable (validateFaceQuality (Ok detection) raw) =
  ge (score detection) (dec 8 10) &&
  isFaceCentered (box detection) (ofZ 640) (ofZ 480) &&
  isGood (checkBrightness raw) && blurIsGood (checkBlur raw).
Proof.
  unfold validateFaceQuality.
  cbn [isAcceptable isHighQuality isCentered brightness blur].
  reflexivity.
Qed.

Lemma checkBrightness_isGood (data : list Z) :
  isGood (checkBrightness (Ok data)) =
  gt (value (checkBrightness (Ok data))) (ofZ 50) &&
  lt (value (checkBrightness (Ok data))) (ofZ 200).
Proof. unfold checkBrightness. cbn [isGood value]. reflexivity. Qed.

Lemma checkBlur_isGood (data : list Z) :
  blurIsGood (checkBlur (Ok data)) =
  gt (blurValue (checkBlur (Ok data))) (ofZ 10).
Proof. unfold checkBlur. cbn [blurIsGood blurValue]. reflexivity. Qed.

Lemma checkBrightness_ragged_not_good (data : list Z) :
  (List.length data mod 3 <> 0)%nat ->
  isGood (checkBrightness (Ok data)) = false.
Proof.
  intros Hmod. rewrite (checkBrightness_ragged data Hmod).
  reflexivity.
Qed.

Lemma checkBlur_short_not_good (data : list Z) :
  Z.of_nat (List.length data) < 29995 ->
  blurIsGood (checkBlur (Ok data)) = false.
Proof.
  intros Hshort. rewrite (checkBlur_short data Hshort).
  reflexivity.
Qed.

(** An image is acceptable exactly when a face was detected at a score
    of at least 0.8, the face is centred, the average brightness is
    strictly between 50 and 200 and the average blur score above 10; the
    raw buffer of an acceptable image holds the whole image in three
    channels. *)
Theorem validateFaceQuality_acceptable_iff (detected : result Detection)
    (raw : result (list Z)) :
  isAcceptable (validateFaceQuality detected raw) = true <->
  exists detection data,
    detected = Ok detection /\ raw = Ok data /\
    ge (score detection) (dec 8 10) = true /\
    isFaceCentered (box detection) (ofZ 640) (ofZ 480) = true /\
    gt (value (checkBrightness raw)) (ofZ 50) = true /\
    lt (value (checkBrightness raw)) (ofZ 200) = true /\
    gt (blurValue (checkBlur raw)) (ofZ 10) = true /\
    29995 <= Z.of_nat (List.length data) /\
    (List.length data mod 3 = 0)%nat.
Proof.
  split.
  - intros Haccepted.
    destruct detected as [detection | message]; [ | discriminate ].
    rewrite validateFaceQuality_detected in Haccepted.
    rewrite !andb_true_iff in Haccepted.
    destruct Haccepted as [[[Hscore Hcentred] Hbright] Hblur].
    destruct raw as [data | message]; [ | discriminate ].
    assert (Hwhole : 29995 <= Z.of_nat (List.length data)).
    { destruct (Z_lt_le_dec (Z.of_nat (List.length data)) 29995)
        as [Hshort | Hlong]; [ | exact Hlong ].
      rewrite (checkBlur_short_not_good data Hshort) in Hblur.
      discriminate Hblur. }
    assert (Hthree : (List.length data mod 3 = 0)%nat).
    { destruct (Nat.eq_dec (List.length data mod 3) 0) as [Hmod | Hmod];
        [ exact Hmod | ].
      rewrite (checkBrightness_ragged_not_good data Hmod) in Hbright.
      discriminate Hbright. }
    rewrite checkBrightness_isGood, andb_true_iff in Hbright.
    rewrite checkBlur_isGood in Hblur.
    exists detection, data.
    split; [ reflexivity | ]. split; [ reflexivity | ].
    split; [ exact Hscore | ]. split; [ exact Hcentred | ].
    split; [ apply Hbright | ]. split; [ apply Hbright | ].
    split; [ exact Hblur | ]. split; [ exact Hwhole | exact Hthree ].
  - intros (detection & data & -> & -> & Hscore & Hcentred & Hlow & Hhigh &
            Hblur & _).
    rewrite validateFaceQuality_detected, checkBrightness_isGood,
      checkBlur_isGood, Hscore, Hcentred, Hlow, Hhigh, Hblur.
    reflexivity.
Qed.

(** When no single face is detected the gate answers [isDetected: false],
    not acceptable, with the message of the detection, and looks at
    neither brightness nor blur. *)
Theorem validateFaceQuality_not_detected (message : string)
    (raw1 raw2 : result (list Z)) :
  validateFaceQuality (Throw message) raw1 = NotDetected message /\
  validateFaceQuality (Throw message) raw1 =
  validateFaceQuality (Throw message) raw2 /\
  isDetected (validateFaceQuality (Throw message) raw1) = false /\
  isAcceptable (validateFaceQuality (Throw message) raw1) = false.
Proof. repeat split. Qed.

End QualityFacts.

(** ** More on the payment service *)

Module ServiceFacts.
Import Stripe PaymentService Requests StoreFacts PaymentFacts.

(** An unknown or inactive user is refused before anything else: the
    call throws, whatever the gateway, and the store is as it was. *)
Theorem processFacePayment_refuses_user (stripe : Gateway) (now : Date)
    (newId userId : ObjectId) (amount : number) (currency description : string)
    (faceData : FaceData.t) (paymentMethod : option string) (st : Store)
    (Hrefused : match lookupUser userId st with
                | Some user => User.isActive user = false
                | None => True
                end) :
  processFacePayment stripe now newId userId amount currency description
    faceData paymentMethod st =
  (Throw "Payment processing failed: User not found or inactive", st).
Proof.
  unfold processFacePayment, tryRethrow, bind, Users.findById, lookupUser in *.
  simpl. destruct (find _ (users st)) as [user |]; [ | reflexivity ].
  rewrite Hrefused. reflexivity.
Qed.

Lemma processFacePayment_refuses_user_witness :
  processFacePayment (Samples.gateway "succeeded") 1000 7 2 (dec 2550 100)
    "usd" "Coffee purchase" Samples.faceData None Samples.emptyStore =
  (Throw "Payment processing failed: User not found or inactive",
   Samples.emptyStore).
Proof.
  apply processFacePayment_refuses_user. vm_compute. exact I.
Defined.

Lemma processFacePayment_Throw_inv (stripe : Gateway) (now : Date)
    (newId userId : ObjectId) (amount : number) (currency description : string)
    (faceData : FaceData.t) (paymentMethod : option string)
    (st st' : Store) (message : string)
    (Hthrown :
       processFacePayment stripe now newId userId amount currency description
         faceData paymentMethod st = (Throw message, st')) :
  payments st' = payments st /\
  exists inner, message = "Payment processing failed: " ++ inner.
Proof.
  revert Hthrown.
  unfold processFacePayment, tryRethrow, bind at 1, Users.findById. simpl.
  destruct (find _ (users st)) as [user |] eqn:Huser;
    [ | simpl; intros H; inversion H; split; [ reflexivity | eexists; reflexivity ] ].
  destruct (User.isActive user) eqn:Hactive;
    [ | simpl; intros H; inversion H; split; [ reflexivity | eexists; reflexivity ] ].
  simpl. unfold bind at 1.
  pose proof (ensureCustomer_payments stripe user st) as Hpay.
  destruct (ensureCustomer stripe user st) as [[customerId | inner] st1];
    simpl in Hpay;
    [ | simpl; intros H; inversion H; subst; split;
        [ assumption | eexists; reflexivity ] ].
  unfold bind at 1, call, createPaymentIntent.
  match goal with
  | |- context [paymentIntents_create stripe ?ps] =>
      destruct (paymentIntents_create stripe ps) as [paymentIntent | inner]
  end;
    [ | simpl; intros H; inversion H; subst; split;
        [ assumption | eexists; reflexivity ] ].
  simpl. unfold bind, Payments.insert, ret.
  destruct (existsb _ (payments st1));
    simpl; intros H; inversion H; subst.
  split; [ assumption | eexists; reflexivity ].
Qed.

(** A call of [processFacePayment] that throws has added no payment, and
    its message starts with the prefix of the call. *)
Theorem processFacePayment_throw_adds_nothing (stripe : Gateway) (now : Date)
    (newId userId : ObjectId) (amount : number) (currency description : string)
    (faceData : FaceData.t) (paymentMethod : option string)
    (st st' : Store) (message : string)
    (Hthrown :
       processFacePayment stripe now newId userId amount currency description
         faceData paymentMethod st = (Throw message, st')) :
  payments st' = payments st /\
  exists inner, message = "Payment processing failed: " ++ inner.
Proof.
  exact (processFacePayment_Throw_inv stripe now newId userId amount currency
           description faceData paymentMethod st st' message Hthrown).
Qed.

Lemma processFacePayment_throw_adds_nothing_witness :
  exists st' message,
    processFacePayment Samples.refusingGateway 1000 7 1 (dec 2550 100) "usd"
      "Coffee purchase" Samples.faceData None Samples.emptyStore =
    (Throw message, st') /\
    payments st' = payments Samples.emptyStore.
Proof.
  exists Samples.emptyStore.
  exists "Payment processing failed: Failed to create payment intent: card network down".
  split; [ reflexivity | ].
  exact (proj1 (processFacePayment_throw_adds_nothing Samples.refusingGateway
                  1000 7 1 (dec 2550 100) "usd" "Coffee purchase"
                  Samples.faceData None Samples.emptyStore Samples.emptyStore
                  _ eq_refl)).
Defined.

Lemma find_app {A : Type} (f : A -> bool) (l1 l2 : list A) :
  find f (l1 ++ l2)%list =
  match find f l1 with Some a => Some a | None => find f l2 end.
Proof.
  induction l1 as [| a rest IH]; [ reflexivity | ].
  simpl. destruct (f a); [ reflexivity | exact IH ].
Qed.

Lemma processFacePayment_Ok_stored (stripe : Gateway) (now : Date)
    (newId userId : ObjectId) (amount : number) (currency description : string)
    (faceData : FaceData.t) (paymentMethod : option string)
    (st st' : Store) (r : FacePaymentResult)
    (Hreturned :
       processFacePayment stripe now newId userId amount currency description
         faceData paymentMethod st = (Ok r, st')) :
  (exists params,
     paymentIntents_create stripe params = Ok (fp_paymentIntent r) /\
     ip_amount params = Payment.amount (fp_payment r) /\
     ip_currency params = Payment.currency (fp_payment r) /\
     getKey "userId" (ip_metadata params) =
       Some (IdText (Payment.userId (fp_payment r))) /\
     getKey "source" (ip_metadata params) = Some (Text "facepay")) /\
  Payment.confidence (Payment.faceRecognitionData (fp_payment r)) =
    FaceData.confidence faceData /\
  Payment.embeddingDistance (Payment.faceRecognitionData (fp_payment r)) =
    FaceData.embeddingDistance faceData /\
  Payment.threshold (Payment.faceRecognitionData (fp_payment r)) =
    FaceData.threshold faceData /\
  lookupId newId st' = Some (fp_payment r) /\
  lookupId newId st = None.
Proof.
  revert Hreturned.
  unfold processFacePayment, tryRethrow, bind at 1, Users.findById. simpl.
  destruct (find _ (users st)) as [user |] eqn:Huser;
    [ | unfold throw; simpl; discriminate ].
  destruct (User.isActive user) eqn:Hactive;
    [ | unfold throw; simpl; discriminate ].
  simpl. unfold bind at 1.
  pose proof (ensureCustomer_payments stripe user st) as Hpay.
  destruct (ensureCustomer stripe user st) as [[customerId | message] st1];
    [ | simpl; discriminate ].
  simpl in Hpay. unfold bind at 1, call, createPaymentIntent.
  match goal with
  | |- context [paymentIntents_create stripe ?ps] =>
      destruct (paymentIntents_create stripe ps) as [paymentIntent |] eqn:Hintent
  end; [ | simpl; discriminate ].
  simpl. unfold bind, Payments.insert, ret.
  destruct (existsb _ (payments st1)) eqn:Hfresh; [ simpl; discriminate | ].
  cbn [Payment._id] in Hfresh. rewrite Hpay in Hfresh.
  simpl. intros H. inversion H; subst; clear H. simpl.
  split; [ eexists; split; [ exact Hintent | repeat split ] | ].
  repeat split.
  - unfold lookupId. simpl. rewrite Hpay.
    rewrite find_app.
    destruct (find _ (payments st)) as [q |] eqn:Hq.
    + apply find_some in Hq. destruct Hq as [Hin Hid].
      assert (Hex : existsb (fun q => Payment._id q =? newId) (payments st) = true)
        by (apply existsb_exists; eauto).
      rewrite Hex in Hfresh. discriminate Hfresh.
    + simpl. rewrite Z.eqb_refl. reflexivity.
  - unfold lookupId.
    destruct (find _ (payments st)) as [q |] eqn:Hq; [ | reflexivity ].
    apply find_some in Hq. destruct Hq as [Hin Hid].
    assert (Hex : existsb (fun q => Payment._id q =? newId) (payments st) = true)
      by (apply existsb_exists; eauto).
    rewrite Hex in Hfresh. discriminate Hfresh.
Qed.

(** The payment that a returning call has stored mirrors the intent it
    asked of the gateway, and carries the evidence it was given. *)
Theorem processFacePayment_mirrors_intent (stripe : Gateway) (now : Date)
    (newId userId : ObjectId) (amount : number) (currency description : string)
    (faceData : FaceData.t) (paymentMethod : option string)
    (st st' : Store) (r : FacePaymentResult)
    (Hreturned :
       processFacePayment stripe now newId userId amount currency description
         faceData paymentMethod st = (Ok r, st')) :
  (exists params,
     paymentIntents_create stripe params = Ok (fp_paymentIntent r) /\
     ip_amount params = Payment.amount (fp_payment r) /\
     ip_currency params = Payment.currency (fp_payment r) /\
     getKey "userId" (ip_metadata params) =
       Some (IdText (Payment.userId (fp_payment r))) /\
     getKey "source" (ip_metadata params) = Some (Text "facepay")) /\
  Payment.confidence (Payment.faceRecognitionData (fp_payment r)) =
    FaceData.confidence faceData /\
  Payment.embeddingDistance (Payment.faceRecognitionData (fp_payment r)) =
    FaceData.embeddingDistance faceData /\
  Payment.threshold (Payment.faceRecognitionData (fp_payment r)) =
    FaceData.threshold faceData /\
  lookupId newId st' = Some (fp_payment r) /\
  lookupId newId st = None.
Proof.
  exact (processFacePayment_Ok_stored stripe now newId userId amount currency
           description faceData paymentMethod st st' r Hreturned).
Qed.

Lemma processFacePayment_mirrors_intent_witness :
  exists r st',
    processFacePayment (Samples.gateway "succeeded") 1000 7 1 (dec 1999 100)
      "EUR" "Book" Samples.faceData (Some "card") Samples.emptyStore =
    (Ok r, st') /\
    Payment.currency (fp_payment r) = "eur" /\
    Payment.amount (fp_payment r) = ofZ 1999 /\
    lookupId 7 st' = Some (fp_payment r).
Proof.
  eexists. eexists. split; [ vm_compute; reflexivity | ].
  split; [ reflexivity | split; [ reflexivity | ] ].
  exact (proj1 (proj2 (proj2 (proj2 (proj2
           (processFacePayment_mirrors_intent (Samples.gateway "succeeded")
              1000 7 1 (dec 1999 100) "EUR" "Book" Samples.faceData
              (Some "card") Samples.emptyStore _ _ eq_refl)))))).
Defined.

(** ** The customer of a user *)

Lemma find_user_replaced (l : list User.t) (u u' : User.t) (id : ObjectId) :
  find (fun v => User._id v =? id) l = Some u ->
  User._id u' = User._id u ->
  find (fun v => User._id v =? id)
       (map (fun v => if User._id v =? User._id u' then u' else v) l) = Some u'.
Proof.
  intros Hfind Hid. induction l as [| v rest IH]; [ discriminate | ].
  simpl in *. destruct (User._id v =? id) eqn:Hv.
  - inversion Hfind; subst v. rewrite Hid, Z.eqb_refl. simpl.
    rewrite <- Hid in Hv. rewrite Hid in Hv. rewrite Hid, Hv. reflexivity.
  - destruct (User._id v =? User._id u') eqn:Hvu.
    + apply Z.eqb_eq in Hvu. simpl.
      apply find_some in Hfind. destruct Hfind as [_ Hu].
      rewrite <- Hid in Hu. rewrite <- Hvu in Hu. congruence.
    + simpl. rewrite Hv. auto.
Qed.

(** A user that has a customer id keeps it: the gateway is not asked and
    the store is as it was.  A user that has none gets the id of the
    customer that the gateway creates, and it is stored on the user, so
    that the next call, whatever its gateway, answers with the stored id
    and creates no second customer. *)
Theorem ensureCustomer_once (stripe : Gateway) (user : User.t) (st : Store) :
  (forall id, User.stripeCustomerId user = Some id -> id <> "" ->
     ensureCustomer stripe user st = (Ok id, st)) /\
  (forall id st',
     truthy (User.stripeCustomerId user) = false ->
     lookupUser (User._id user) st = Some user ->
     ensureCustomer stripe user st = (Ok id, st') ->
     id <> "" ->
     exists user',
       lookupUser (User._id user) st' = Some user' /\
       User.stripeCustomerId user' = Some id /\
       payments st' = payments st /\
       forall stripe', ensureCustomer stripe' user' st' = (Ok id, st')).
Proof.
  split.
  - intros id Hid Hne. unfold ensureCustomer. rewrite Hid.
    destruct id as [| c rest]; [ contradiction | reflexivity ].
  - intros id st' Hnone Hfound Hrun Hne.
    assert (Hcreated : exists customer,
               Customer.id customer = id /\
               st' = snd (Users.save
                            (User.with_stripeCustomerId (Customer.id customer) user)
                            st)).
    { unfold ensureCustomer in Hrun.
      destruct (User.stripeCustomerId user) as [[| c rest] |];
        try discriminate;
        unfold bind, call, ret in Hrun;
        destruct (customers_create stripe _) as [customer |];
        try discriminate;
        simpl in Hrun; inversion Hrun; subst; exists customer; auto. }
    destruct Hcreated as (customer & <- & ->).
    exists (User.with_stripeCustomerId (Customer.id customer) user).
    split.
    { exact (find_user_replaced (users st) user
               (User.with_stripeCustomerId (Customer.id customer) user)
               (User._id user) Hfound eq_refl). }
    split; [ reflexivity | ]. split; [ reflexivity | ].
    intros stripe'. unfold ensureCustomer.
    cbn [User.stripeCustomerId User.with_stripeCustomerId].
    destruct (Customer.id customer) as [| c' rest'];
      [ contradiction | reflexivity ].
Qed.

Lemma ensureCustomer_once_witness :
  ensureCustomer Samples.refusingGateway Samples.alice Samples.emptyStore =
  (Ok "cus_1", Samples.emptyStore).
Proof.
  apply (proj1 (ensureCustomer_once Samples.refusingGateway Samples.alice
                  Samples.emptyStore)).
  - reflexivity.
  - discriminate.
Defined.

(** ** Confirming and refunding *)



(** [confirmPayment] and [refundPayment] write nothing when they throw:
    the store is as it was, and the message carries the prefix of the
    call. *)
Theorem confirm_refund_throw_writes_nothing (stripe : Gateway) (now : Date)
    (st : Store) :
  (forall paymentIntentId paymentMethodId message st',
     confirmPayment stripe now paymentIntentId paymentMethodId st =
       (Throw message, st') ->
     st' = st /\
     exists inner, message = "Payment confirmation failed: " ++ inner) /\
  (forall paymentId reason message st',
     refundPayment stripe now paymentId reason st = (Throw message, st') ->
     st' = st /\ exists inner, message = "Refund failed: " ++ inner).
Proof.
  split.
  - intros paymentIntentId paymentMethodId message st' Hthrown.
    rewrite confirmPayment_run in Hthrown.
    destruct (lookup (Some paymentIntentId) st) as [p |].
    + destruct (paymentIntents_confirm stripe paymentIntentId paymentMethodId)
        as [paymentIntent |].
      * destruct (Payment.validStatus (PaymentIntent.status paymentIntent));
          inversion Hthrown; subst.
        split; [ reflexivity | eexists; reflexivity ].
      * inversion Hthrown; subst.
        split; [ reflexivity | eexists; reflexivity ].
    + inversion Hthrown; subst.
      split; [ reflexivity | eexists; reflexivity ].
  - intros paymentId reason message st' Hthrown.
    rewrite refundPayment_run in Hthrown.
    destruct (lookupId paymentId st) as [p |].
    + destruct (String.eqb (Payment.status p) "succeeded").
      * destruct (refunds_create stripe _); inversion Hthrown; subst.
        split; [ reflexivity | eexists; reflexivity ].
      * inversion Hthrown; subst.
        split; [ reflexivity | eexists; reflexivity ].
    + inversion Hthrown; subst.
      split; [ reflexivity | eexists; reflexivity ].
Qed.



(** ** Webhook events *)

(** An event of a type that the service does not handle, and an event
    for an intent that no payment carries, change nothing and do not
    throw. *)
Theorem handleWebhook_ignores (now : Date) (event : Event.t) (st : Store) :
  (Event.type event <> "payment_intent.succeeded" ->
   Event.type event <> "payment_intent.payment_failed" ->
   Event.type event <> "charge.refunded" ->
   handleWebhook now event st = (Ok tt, st)) /\
  (lookup (EventObject.id (Event.data_object event)) st = None ->
   lookup (EventObject.payment_intent (Event.data_object event)) st = None ->
   handleWebhook now event st = (Ok tt, st)).
Proof.
  split.
  - intros H1 H2 H3. unfold handleWebhook.
    apply String.eqb_neq in H1, H2, H3. rewrite H1, H2, H3. reflexivity.
  - intros Hid Hintent. unfold handleWebhook.
    destruct (String.eqb (Event.type event) "payment_intent.succeeded");
      [ rewrite handlePaymentSucceeded_run, Hid; reflexivity | ].
    destruct (String.eqb (Event.type event) "payment_intent.payment_failed");
      [ rewrite handlePaymentFailed_run, Hid; reflexivity | ].
    destruct (String.eqb (Event.type event) "charge.refunded");
      [ rewrite handleChargeRefunded_run, Hintent; reflexivity | reflexivity ].
Qed.

(** A payment-failed event puts the payment of its intent in [failed]
    and records the message and the code of the gateway's error, or
    ['Payment failed'] and ['unknown'] where the event has none. *)
Theorem handlePaymentFailed_records_reason (obj : EventObject.t) (st : Store)
    (p : Payment.t)
    (Hfound : lookup (EventObject.id obj) st = Some p) :
  exists st' p',
    handlePaymentFailed obj st = (Ok tt, st') /\
    lookup (EventObject.id obj) st' = Some p' /\
    Payment.status p' = "failed" /\
    Payment.failureReason p' =
      Some (match EventObject.last_payment_error obj with
            | Some {| PaymentError.message := Some (String c rest) |} =>
                String c rest
            | _ => "Payment failed"
            end) /\
    Payment.failureCode p' =
      Some (match EventObject.last_payment_error obj with
            | Some {| PaymentError.code := Some (String c rest) |} =>
                String c rest
            | _ => "unknown"
            end) /\
    core p' = core p /\ Payment.processedAt p' = Payment.processedAt p.
Proof.
  rewrite handlePaymentFailed_run, Hfound.
  eexists. eexists. split; [ reflexivity | ].
  split; [ apply lookup_saved with (p := p); auto | ].
  split; [ reflexivity | ].
  split.
  { cbn [Payment.failureReason Payment.with_failureCode
         Payment.with_failureReason].
    unfold errorMessage, orString.
    destruct (EventObject.last_payment_error obj) as [[[[| c rest] |] code] |];
      reflexivity. }
  split.
  { cbn [Payment.failureCode Payment.with_failureCode].
    unfold errorCode, orString.
    destruct (EventObject.last_payment_error obj) as [[message [[| c rest] |]] |];
      reflexivity. }
  split; reflexivity.
Qed.

Lemma handlePaymentFailed_records_reason_witness :
  exists st' p',
    handlePaymentFailed
      (Event.data_object (Samples.event "payment_intent.payment_failed"))
      Samples.pendingStore = (Ok tt, st') /\
    lookup (Some "pi_1") st' = Some p' /\
    Payment.status p' = "failed" /\
    Payment.failureReason p' = Some "Payment failed" /\
    Payment.failureCode p' = Some "unknown".
Proof.
  destruct (handlePaymentFailed_records_reason
              (Event.data_object (Samples.event "payment_intent.payment_failed"))
              Samples.pendingStore _ eq_refl)
    as (st' & p' & Hrun & Hlook & Hstatus & Hreason & Hcode & _).
  exists st', p'. auto.
Defined.

(** ** The audit trail *)

Lemma NoDup_map_eq {A B : Type} (f : A -> B) (l : list A) (a b : A) :
  NoDup (map f l) -> In a l -> In b l -> f a = f b -> a = b.
Proof.
  induction l as [| x rest IH]; intros Hnd Ha Hb Hf; [ destruct Ha | ].
  simpl in Hnd. inversion Hnd as [| y ys Hnotin Hrest]; subst.
  destruct Ha as [-> | Ha], Hb as [-> | Hb]; auto.
  - elim Hnotin. rewrite Hf. apply in_map. exact Hb.
  - elim Hnotin. rewrite <- Hf. apply in_map. exact Ha.
Qed.

Lemma saved_ids (p' : Payment.t) (st : Store) :
  map Payment._id (payments (saved p' st)) = map Payment._id (payments st).
Proof.
  unfold saved, Payments.save.
  destruct (negb (Payment.validStatus (Payment.status p'))); [ reflexivity | ].
  simpl. rewrite map_map.
  apply map_ext. intros q.
  destruct (Payment._id q =? Payment._id p') eqn:Hq; [ | reflexivity ].
  apply Z.eqb_eq in Hq. auto.
Qed.

Lemma saved_core (p p' : Payment.t) (st : Store) :
  uniqueIds st -> In p (payments st) ->
  core p' = core p ->
  map core (payments (saved p' st)) = map core (payments st).
Proof.
  intros Hunique Hin Hcore.
  assert (Hid : Payment._id p' = Payment._id p)
    by (unfold core in Hcore; congruence).
  unfold saved, Payments.save.
  destruct (negb (Payment.validStatus (Payment.status p'))); [ reflexivity | ].
  simpl. rewrite map_map.
  apply map_ext_in. intros q Hq.
  destruct (Payment._id q =? Payment._id p') eqn:Hqp; [ | reflexivity ].
  apply Z.eqb_eq in Hqp.
  assert (q = p).
  { apply (NoDup_map_eq Payment._id (payments st)); auto. congruence. }
  subst q. exact Hcore.
Qed.

Lemma saved_found_keeps (p p' : Payment.t) (st : Store) :
  uniqueIds st -> In p (payments st) -> core p' = core p ->
  uniqueIds (saved p' st) /\
  exists added,
    map core (payments (saved p' st)) = (map core (payments st) ++ added)%list.
Proof.
  intros Hunique Hin Hcore. split.
  - unfold uniqueIds. rewrite saved_ids. exact Hunique.
  - exists []. rewrite app_nil_r. apply saved_core with (p := p); assumption.
Qed.

Lemma unchanged_keeps (st : Store) :
  uniqueIds st ->
  uniqueIds st /\
  exists added, map core (payments st) = (map core (payments st) ++ added)%list.
Proof. intros H. split; [ exact H | exists []; rewrite app_nil_r; reflexivity ]. Qed.

Lemma lookup_In (key : option string) (st : Store) (p : Payment.t) :
  lookup key st = Some p -> In p (payments st).
Proof.
  unfold lookup, Payments.findOne. simpl. destruct key; [ | discriminate ].
  intros H. apply find_some in H. apply H.
Qed.

Lemma lookupId_In (id : ObjectId) (st : Store) (p : Payment.t) :
  lookupId id st = Some p -> In p (payments st).
Proof. unfold lookupId. intros H. apply find_some in H. apply H. Qed.

Lemma confirmedPayment_core (now : Date) (paymentIntent : PaymentIntent.t)
    (p : Payment.t) :
  core (confirmedPayment now paymentIntent p) = core p.
Proof.
  unfold confirmedPayment, core.
  destruct (String.eqb (PaymentIntent.status paymentIntent) "succeeded");
    [ reflexivity | ].
  destruct (String.eqb (PaymentIntent.status paymentIntent) "failed");
    reflexivity.
Qed.

Lemma serve_keeps (request : Request) (st : Store) :
  uniqueIds st ->
  uniqueIds (serve request st) /\
  exists added,
    map core (payments (serve request st)) =
    (map core (payments st) ++ added)%list.
Proof.
  intros Hunique. destruct request; simpl.
  - destruct (processFacePayment stripe now newId userId amount currency
                description faceData paymentMethod st) as [[r | message] st']
      eqn:Hrun; simpl.
    + pose proof (processFacePayment_Ok_stored _ _ _ _ _ _ _ _ _ _ _ _ Hrun)
        as (_ & _ & _ & _ & _ & Hfresh).
      apply processFacePayment_Ok_inv in Hrun.
      destruct Hrun as (_ & _ & Hpayments & Hid & _).
      split.
      * unfold uniqueIds. rewrite Hpayments, map_app. simpl.
        apply NoDup_app; [ exact Hunique | repeat constructor; intros [] | ].
        intros id Hin [<- | []]. rewrite Hid in Hin.
        apply in_map_iff in Hin. destruct Hin as (q & Hq & Hin).
        unfold lookupId in Hfresh.
        apply (find_none _ _ Hfresh) in Hin. rewrite Hq, Z.eqb_refl in Hin.
        discriminate.
      * exists [core (fp_payment r)]. rewrite Hpayments, map_app. reflexivity.
    + apply processFacePayment_Throw_inv in Hrun.
      destruct Hrun as [Hpayments _]. unfold uniqueIds.
      rewrite Hpayments. apply unchanged_keeps. exact Hunique.
  - rewrite confirmPayment_run.
    destruct (lookup (Some paymentIntentId) st) as [p |] eqn:Hfound;
      [ | apply unchanged_keeps; exact Hunique ].
    destruct (paymentIntents_confirm stripe paymentIntentId paymentMethodId)
      as [paymentIntent |]; [ | apply unchanged_keeps; exact Hunique ].
    destruct (Payment.validStatus (PaymentIntent.status paymentIntent));
      [ | apply unchanged_keeps; exact Hunique ].
    simpl. apply saved_found_keeps with (p := p);
      eauto using lookup_In, confirmedPayment_core.
  - rewrite refundPayment_run.
    destruct (lookupId paymentId st) as [p |] eqn:Hfound;
      [ | apply unchanged_keeps; exact Hunique ].
    destruct (String.eqb (Payment.status p) "succeeded");
      [ | apply unchanged_keeps; exact Hunique ].
    destruct (refunds_create stripe _);
      [ | apply unchanged_keeps; exact Hunique ].
    simpl. apply saved_found_keeps with (p := p); eauto using lookupId_In.
  - unfold handleWebhook.
    destruct (String.eqb (Event.type event) "payment_intent.succeeded").
    { rewrite handlePaymentSucceeded_run. simpl.
      destruct (lookup _ st) as [p |] eqn:Hfound;
        [ | apply unchanged_keeps; exact Hunique ].
      apply saved_found_keeps with (p := p); eauto using lookup_In. }
    destruct (String.eqb (Event.type event) "payment_intent.payment_failed").
    { rewrite handlePaymentFailed_run. simpl.
      destruct (lookup _ st) as [p |] eqn:Hfound;
        [ | apply unchanged_keeps; exact Hunique ].
      apply saved_found_keeps with (p := p); eauto using lookup_In. }
    destruct (String.eqb (Event.type event) "charge.refunded").
    { rewrite handleChargeRefunded_run. simpl.
      destruct (lookup _ st) as [p |] eqn:Hfound;
        [ | apply unchanged_keeps; exact Hunique ].
      apply saved_found_keeps with (p := p); eauto using lookup_In. }
    simpl. apply unchanged_keeps. exact Hunique.
Qed.

(** Over any history of requests, from a store whose payments have
    distinct ids: the ids stay distinct, no payment is removed, and the
    id, amount, currency, user, intent id, customer id and creation time
    of a payment never change; payments are only added at the end. *)
Theorem payments_append_only (requests : list Request) (st : Store)
    (Hunique : uniqueIds st) :
  uniqueIds (serveAll requests st) /\
  exists added,
    map core (payments (serveAll requests st)) =
    (map core (payments st) ++ added)%list.
Proof.
  revert st Hunique. induction requests as [| request rest IH];
    intros st Hunique.
  - apply unchanged_keeps. exact Hunique.
  - simpl. destruct (serve_keeps request st Hunique) as (Hu1 & added1 & H1).
    destruct (IH (serve request st) Hu1) as (Hu2 & added2 & H2).
    split; [ exact Hu2 | ].
    exists (added1 ++ added2)%list. rewrite H2, H1, app_assoc. reflexivity.
Qed.

Lemma payments_append_only_witness :
  exists added,
    map core
      (payments
         (serveAll
            [ConfirmPayment (Samples.gateway "succeeded") 2000 "pi_1" None;
             HandleWebhook 2500 (Samples.event "charge.refunded");
             ProcessFacePayment (Samples.gateway "succeeded") 3000 8 1
               (ofZ 5) "usd" "Tea" Samples.faceData None]
            Samples.pendingStore)) =
    (map core (payments Samples.pendingStore) ++ added)%list.
Proof.
  apply payments_append_only.
  vm_compute. repeat constructor. intros [].
Defined.

(** ** The intent sent to the gateway *)

Lemma getKey_setKey_same (key : string) (v : MetaValue) (metadata : Metadata) :
  getKey key (setKey key v metadata) = Some v.
Proof.
  induction metadata as [| [k w] rest IH]; simpl.
  - rewrite String.eqb_refl. reflexivity.
  - destruct (String.eqb k key) eqn:Hk; simpl; rewrite Hk; auto.
Qed.

Lemma getKey_setKey_other (key other : string) (v : MetaValue)
    (metadata : Metadata) :
  other <> key ->
  getKey other (setKey key v metadata) = getKey other metadata.
Proof.
  intros Hne. induction metadata as [| [k w] rest IH]; simpl.
  - apply String.eqb_neq in Hne. rewrite String.eqb_sym, Hne. reflexivity.
  - destruct (String.eqb k key) eqn:Hk; simpl.
    + apply String.eqb_eq in Hk. subst k.
      apply String.eqb_neq in Hne. rewrite String.eqb_sym, Hne. reflexivity.
    + destruct (String.eqb k other); auto.
Qed.

Lemma toLowerCaseAscii_idempotent (c : ascii) :
  toLowerCaseAscii (toLowerCaseAscii c) = toLowerCaseAscii c.
Proof. destruct c as [[] [] [] [] [] [] [] []]; reflexivity. Qed.

Lemma toLowerCase_idempotent (s : string) :
  toLowerCase (toLowerCase s) = toLowerCase s.
Proof.
  induction s as [| c rest IH]; [ reflexivity | ].
  simpl. rewrite toLowerCaseAscii_idempotent, IH. reflexivity.
Qed.

(** What [createPaymentIntent] asks of the gateway: the amount in minor
    units, rounded; the currency in lower case, ["usd"] when none is
    given; and the caller's metadata, in which [source] is always
    ["facepay"] and [timestamp] the time of the call, whatever the caller
    put under these keys, every other key being the caller's.  A refusal
    of the gateway is thrown again with the prefix of the call. *)
Theorem createPaymentIntent_request (stripe : Gateway) (now : Date)
    (amount : number) (currency : option string) (metadata : option Metadata) :
  exists params,
    createPaymentIntent stripe now amount currency metadata =
      rethrow "Failed to create payment intent: "
        (paymentIntents_create stripe params) /\
    ip_amount params = Math_round (mul amount (ofZ 100)) /\
    ip_currency params =
      toLowerCase (match currency with Some c => c | None => "usd" end) /\
    toLowerCase (ip_currency params) = ip_currency params /\
    getKey "source" (ip_metadata params) = Some (Text "facepay") /\
    getKey "timestamp" (ip_metadata params) = Some (IsoText now) /\
    forall key, key <> "source" -> key <> "timestamp" ->
      getKey key (ip_metadata params) =
      getKey key (match metadata with Some m => m | None => [] end).
Proof.
  eexists. split; [ reflexivity | ]. cbn [ip_amount ip_currency ip_metadata].
  split; [ reflexivity | ]. split; [ reflexivity | ].
  split; [ apply toLowerCase_idempotent | ].
  split.
  { rewrite getKey_setKey_other by discriminate. apply getKey_setKey_same. }
  split; [ apply getKey_setKey_same | ].
  intros key Hsource Htimestamp.
  rewrite !getKey_setKey_other by assumption. reflexivity.
Qed.

End ServiceFacts.

(** ** Payment methods *)

Module MethodFacts.
Import Stripe PaymentService Requests StoreFacts PaymentFacts ServiceFacts.

Lemma getPaymentMethods_run (stripe : Gateway) (userId : ObjectId) (st : Store) :
  getPaymentMethods stripe userId st =
  match lookupUser userId st with
  | Some user =>
      match User.stripeCustomerId user with
      | Some (String c rest) =>
          match paymentMethods_list stripe (String c rest) "card" with
          | Ok paymentMethods =>
              (Ok (map (fun pm =>
                          {| view_id := PaymentMethod.id pm;
                             view_type := PaymentMethod.type pm;
                             view_card :=
                               match PaymentMethod.card pm with
                               | Some card =>
                                   Some {| view_brand := Card.brand card;
                                           view_last4 := Card.last4 card;
                                           view_expMonth := Card.exp_month card;
                                           view_expYear := Card.exp_year card |}
                               | None => None
                               end;
                             view_isDefault := isDefaultMethod pm user |})
                       paymentMethods), st)
          | Throw message =>
              (Throw ("Failed to get payment methods: " ++ message), st)
          end
      | _ => (Ok [], st)
      end
  | None => (Ok [], st)
  end.
Proof.
  unfold getPaymentMethods, tryRethrow, bind, Users.findById, lookupUser,
    call, ret.
  simpl. destruct (find _ (users st)) as [user |]; [ | reflexivity ].
  destruct (User.stripeCustomerId user) as [[| c rest] |]; try reflexivity.
  simpl. destruct (paymentMethods_list stripe _ _); reflexivity.
Qed.

(** For an unknown user, or one without a customer at the gateway, the
    list of payment methods is empty, whatever the gateway would say. *)
Theorem getPaymentMethods_without_customer (stripe : Gateway)
    (userId : ObjectId) (st : Store)
    (Hnone : match lookupUser userId st with
             | Some user => truthy (User.stripeCustomerId user) = false
             | None => True
             end) :
  getPaymentMethods stripe userId st = (Ok [], st).
Proof.
  rewrite getPaymentMethods_run.
  destruct (lookupUser userId st) as [user |]; [ | reflexivity ].
  destruct (User.stripeCustomerId user) as [[| c rest] |];
    try reflexivity. discriminate.
Qed.

Lemma getPaymentMethods_without_customer_witness :
  getPaymentMethods (Samples.gateway "succeeded") 2 Samples.emptyStore =
  (Ok [], Samples.emptyStore).
Proof.
  apply getPaymentMethods_without_customer. vm_compute. exact I.
Defined.

(** The methods come back in the gateway's order, one view for each, and
    a view is marked as the default exactly when its id is the user's
    default payment method. *)
Theorem getPaymentMethods_views (stripe : Gateway) (userId : ObjectId)
    (st st' : Store) (views : list MethodView)
    (Hreturned : getPaymentMethods stripe userId st = (Ok views, st'))
    (Hsome : views <> []) :
  st' = st /\
  exists user customer paymentMethods,
    lookupUser userId st = Some user /\
    User.stripeCustomerId user = Some customer /\
    paymentMethods_list stripe customer "card" = Ok paymentMethods /\
    map view_id views = map PaymentMethod.id paymentMethods /\
    forall view, In view views ->
      (view_isDefault view = true <->
       User.defaultPaymentMethod user = Some (view_id view)).
Proof.
  rewrite getPaymentMethods_run in Hreturned.
  destruct (lookupUser userId st) as [user |];
    [ | inversion Hreturned; subst; contradiction ].
  destruct (User.stripeCustomerId user) as [[| c rest] |] eqn:Hcustomer;
    try (inversion Hreturned; subst; contradiction).
  destruct (paymentMethods_list stripe _ _) as [paymentMethods |] eqn:Hlist;
    [ | discriminate ].
  inversion Hreturned; subst; clear Hreturned.
  split; [ reflexivity | ].
  exists user, (String c rest), paymentMethods.
  repeat split; auto.
  - rewrite map_map. reflexivity.
  - apply in_map_iff in H. destruct H as (pm & <- & _).
    cbn [view_isDefault view_id]. unfold isDefaultMethod. intros Hd.
    destruct (User.defaultPaymentMethod user) as [id |]; [ | discriminate ].
    apply String.eqb_eq in Hd. congruence.
  - apply in_map_iff in H. destruct H as (pm & <- & _).
    cbn [view_isDefault view_id]. unfold isDefaultMethod. intros ->.
    apply String.eqb_refl.
Qed.

Lemma getPaymentMethods_views_witness :
  exists views,
    getPaymentMethods Samples.cardGateway 1 Samples.emptyStore =
    (Ok views, Samples.emptyStore) /\
    map view_id views = ["pm_1"; "pm_2"].
Proof.
  eexists. split; [ vm_compute; reflexivity | ].
  destruct (getPaymentMethods_views Samples.cardGateway 1 Samples.emptyStore
              _ _ eq_refl ltac:(discriminate))
    as (_ & user & customer & paymentMethods & _ & _ & Hlist & Hids & _).
  inversion Hlist; subst. exact Hids.
Defined.

Lemma attachPaymentMethod_run (stripe : Gateway) (userId : ObjectId)
    (paymentMethodId : string) (st : Store) :
  attachPaymentMethod stripe userId paymentMethodId st =
  match lookupUser userId st with
  | Some user =>
      match User.stripeCustomerId user with
      | Some (String c rest) =>
          match paymentMethods_attach stripe paymentMethodId (String c rest) with
          | Ok _ =>
              match customers_update stripe (String c rest) paymentMethodId with
              | Ok _ =>
                  (Ok paymentMethodId,
                   snd (Users.save
                          (User.with_defaultPaymentMethod paymentMethodId user)
                          st))
              | Throw message =>
                  (Throw ("Failed to attach payment method: " ++ message), st)
              end
          | Throw message =>
              (Throw ("Failed to attach payment method: " ++ message), st)
          end
      | _ =>
          (Throw "Failed to attach payment method: User not found or no Stripe customer",
           st)
      end
  | None =>
      (Throw "Failed to attach payment method: User not found or no Stripe customer",
       st)
  end.
Proof.
  unfold attachPaymentMethod, tryRethrow, bind, Users.findById, lookupUser,
    call, ret, throw.
  simpl. destruct (find _ (users st)) as [user |]; [ | reflexivity ].
  destruct (User.stripeCustomerId user) as [[| c rest] |]; try reflexivity.
  simpl. destruct (paymentMethods_attach stripe _ _); [ | reflexivity ].
  destruct (customers_update stripe _ _); reflexivity.
Qed.

(** Attaching a payment method writes the user only after the gateway
    has accepted both calls: a call that throws leaves the store as it
    was.  A call that returns has made the method the user's default,
    so that the list of payment methods read afterwards, whatever the
    gateway lists, marks as default exactly the method of that id. *)
Theorem attachPaymentMethod_makes_default (stripe : Gateway)
    (userId : ObjectId) (paymentMethodId : string) (st st' : Store) :
  (forall message,
     attachPaymentMethod stripe userId paymentMethodId st =
       (Throw message, st') -> st' = st) /\
  (forall returned,
     attachPaymentMethod stripe userId paymentMethodId st =
       (Ok returned, st') ->
     returned = paymentMethodId /\
     payments st' = payments st /\
     (exists user',
        lookupUser userId st' = Some user' /\
        User.defaultPaymentMethod user' = Some paymentMethodId) /\
     forall stripe' views st'',
       getPaymentMethods stripe' userId st' = (Ok views, st'') ->
       forall view, In view views ->
         (view_isDefault view = true <-> view_id view = paymentMethodId)).
Proof.
  rewrite attachPaymentMethod_run. split.
  - intros message Hthrown.
    destruct (lookupUser userId st) as [user |]; [ | congruence ].
    destruct (User.stripeCustomerId user) as [[| c rest] |]; try congruence.
    destruct (paymentMethods_attach stripe _ _); [ | congruence ].
    destruct (customers_update stripe _ _); [ discriminate | congruence ].
  - intros returned Hreturned.
    destruct (lookupUser userId st) as [user |] eqn:Huser; [ | discriminate ].
    destruct (User.stripeCustomerId user) as [[| c rest] |] eqn:Hcustomer;
      try discriminate.
    destruct (paymentMethods_attach stripe _ _); [ | discriminate ].
    destruct (customers_update stripe _ _); [ | discriminate ].
    injection Hreturned as Hret Hst. subst returned.
    assert (Hafter :
              lookupUser userId st'
              = Some (User.with_defaultPaymentMethod paymentMethodId user)).
    { rewrite <- Hst.
      exact (find_user_replaced (users st) user
               (User.with_defaultPaymentMethod paymentMethodId user)
               userId Huser eq_refl). }
    split; [ reflexivity | ].
    split; [ rewrite <- Hst; reflexivity | ].
    split; [ eexists; split; [ exact Hafter | reflexivity ] | ].
    intros stripe' views st'' Hviews view Hin.
    rewrite getPaymentMethods_run, Hafter in Hviews.
    cbn [User.stripeCustomerId User.with_defaultPaymentMethod] in Hviews.
    rewrite Hcustomer in Hviews.
    destruct (paymentMethods_list stripe' _ _) as [paymentMethods |];
      [ | discriminate ].
    injection Hviews as Hviews _. subst views.
    apply in_map_iff in Hin. destruct Hin as (pm & <- & _).
    cbn [view_isDefault view_id]. unfold isDefaultMethod.
    cbn [User.defaultPaymentMethod User.with_defaultPaymentMethod].
    apply String.eqb_eq.
Qed.

Lemma attachPaymentMethod_makes_default_witness :
  exists st',
    attachPaymentMethod Samples.cardGateway 1 "pm_2" Samples.emptyStore =
    (Ok "pm_2", st') /\
    exists views,
      getPaymentMethods Samples.cardGateway 1 st' = (Ok views, st') /\
      map view_isDefault views = [false; true].
Proof.
  eexists. split; [ vm_compute; reflexivity | ].
  destruct (proj2 (attachPaymentMethod_makes_default Samples.cardGateway 1
                     "pm_2" Samples.emptyStore _) "pm_2" eq_refl)
    as (_ & _ & _ & _).
  eexists. split; vm_compute; reflexivity.
Defined.

(** The customer id that [ensureCustomer] answers with is, afterwards,
    the one stored on the user. *)
Lemma ensureCustomer_stored (stripe : Gateway) (user : User.t)
    (st st' : Store) (id : string) :
  lookupUser (User._id user) st = Some user ->
  ensureCustomer stripe user st = (Ok id, st') ->
  payments st' = payments st /\
  exists user',
    lookupUser (User._id user) st' = Some user' /\
    User.stripeCustomerId user' = Some id /\
    User._id user' = User._id user.
Proof.
  intros Hfound Hrun. unfold ensureCustomer in Hrun.
  destruct (User.stripeCustomerId user) as [[| c rest] |] eqn:Hcustomer.
  2: { inversion Hrun; subst. split; [ reflexivity | ].
       exists user. auto. }
  all: unfold bind, call, ret in Hrun;
    destruct (customers_create stripe _) as [customer |]; try discriminate;
    simpl in Hrun; injection Hrun as Hid Hst; subst id;
    (split; [ rewrite <- Hst; reflexivity | ]);
    exists (User.with_stripeCustomerId (Customer.id customer) user);
    (split; [ rewrite <- Hst;
              exact (find_user_replaced (users st) user
                       (User.with_stripeCustomerId (Customer.id customer) user)
                       (User._id user) Hfound eq_refl) | ]);
    split; reflexivity.
Qed.

Lemma createSetupIntent_run (stripe : Gateway) (userId : ObjectId)
    (st : Store) :
  createSetupIntent stripe userId st =
  match lookupUser userId st with
  | None => (Throw "Failed to create setup intent: User not found", st)
  | Some user =>
      match ensureCustomer stripe user st with
      | (Ok stripeCustomerId, st1) =>
          (rethrow "Failed to create setup intent: "
             (setupIntents_create stripe
                {| sp_customer := stripeCustomerId;
                   sp_payment_method_types := ["card"];
                   sp_metadata :=
                     [("userId", IdText (User._id user));
                      ("purpose", Text "facepay_payment_method")] |}), st1)
      | (Throw message, st1) =>
          (Throw ("Failed to create setup intent: " ++ message), st1)
      end
  end.
Proof.
  unfold createSetupIntent, tryRethrow, bind at 1, Users.findById, lookupUser,
    throw.
  simpl. destruct (find _ (users st)) as [user |]; [ | reflexivity ].
  unfold bind, call.
  destruct (ensureCustomer stripe user st) as [[customerId | message] st1];
    reflexivity.
Qed.

(** A setup intent is created for the customer of the user: when the call
    returns, the id it gave the gateway as [customer] is the one stored
    on the user, created by this call if the user had none.  An unknown
    user is refused and nothing is written. *)
Theorem createSetupIntent_customer (stripe : Gateway) (userId : ObjectId)
    (st st' : Store) :
  (lookupUser userId st = None ->
   createSetupIntent stripe userId st =
   (Throw "Failed to create setup intent: User not found", st)) /\
  (forall setupIntent,
     createSetupIntent stripe userId st = (Ok setupIntent, st') ->
     payments st' = payments st /\
     exists params user',
       setupIntents_create stripe params = Ok setupIntent /\
       sp_payment_method_types params = ["card"] /\
       lookupUser userId st' = Some user' /\
       User.stripeCustomerId user' = Some (sp_customer params)).
Proof.
  rewrite createSetupIntent_run. split.
  - intros ->. reflexivity.
  - intros setupIntent.
    destruct (lookupUser userId st) as [user |] eqn:Huser; [ | discriminate ].
    assert (Hid : User._id user = userId).
    { unfold lookupUser in Huser. apply find_some in Huser.
      destruct Huser as [_ Hid]. apply Z.eqb_eq in Hid. exact Hid. }
    destruct (ensureCustomer stripe user st) as [[customerId | message] st1]
      eqn:Hensure; [ | discriminate ].
    rewrite <- Hid in Huser.
    destruct (ensureCustomer_stored stripe user st st1 customerId Huser Hensure)
      as (Hpayments & user' & Hfound & Hcustomer & _).
    destruct (setupIntents_create stripe _) as [answer |] eqn:Hsetup;
      [ | discriminate ].
    cbn [rethrow]. intros H. injection H as Hanswer Hst. subst answer st1.
    split; [ exact Hpayments | ].
    eexists. exists user'. split; [ exact Hsetup | ].
    split; [ reflexivity | ]. split; [ rewrite <- Hid; exact Hfound | ].
    exact Hcustomer.
Qed.

End MethodFacts.
